(** * audiomobil-live: the theme engine and the view controller [App]

    A shallow embedding of the storefront's application shell.  The first
    half models the theme engine ([hexToRgb], [mix], [applyTheme]) on IEEE
    binary64 numbers, which is what a JavaScript [number] is; the second
    half models the [App] component as an explicit state record, its
    handlers as state transformers and its render function as a function
    from a state snapshot to an element tree. *)

From Stdlib Require Import ZArith String Ascii List Bool Lia.
From Corelib Require Import PrimFloat FloatOps SpecFloat.
From stdpp Require Import base option list gmap strings pretty.
Import ListNotations.

Set Warnings "-inexact-float,-register-all".
Local Open Scope Z_scope.

(** ** JavaScript numbers *)

Module JsNumber.

(** The binary64 value nearest to an integer (exact below [2^53]). *)
Definition of_Z (z : Z) : float :=
  SF2Prim (binary_normalize prec emax z 0 false).

(** [Math.round]: the integral value closest to [x], ties going towards
    plus infinity; integral values, infinities and NaN are returned as
    they are, and a result of zero keeps the sign of [x]. *)
Definition Math_round (x : float) : float :=
  match Prim2SF x with
  | S754_finite s m e =>
      if 0 <=? e then x
      else
        let d := 2 ^ (- e) in
        let n := if s then Z.neg m else Z.pos m in
        let q := (2 * n + d) / (2 * d) in
        if q =? 0 then (if s then neg_zero else zero) else of_Z q
  | _ => x
  end.

(** The integer a finite number denotes, when it denotes one. *)
Definition to_integer (x : float) : option Z :=
  match Prim2SF x with
  | S754_zero _ => Some 0
  | S754_finite s m e =>
      let sign z := if s then - z else z in
      if 0 <=? e then Some (sign (Z.pos m * 2 ^ e))
      else if Z.pos m mod 2 ^ (- e) =? 0 then Some (sign (Z.pos m / 2 ^ (- e)))
      else None
  | _ => None
  end.

(** [Number::toString] as a template literal applies it.  Integral values
    up to [2^53] in magnitude print as their decimal digits.  The
    shortest-digits printing of fractional values and of larger values is
    outside the modelled fragment ([None]): [applyTheme] only prints
    results of [Math.round] and of [parseInt] on two digits. *)
Definition toString (x : float) : option string :=
  match Prim2SF x with
  | S754_nan => Some "NaN"%string
  | S754_infinity false => Some "Infinity"%string
  | S754_infinity true => Some "-Infinity"%string
  | _ =>
      z ← to_integer x;
      if Z.abs z <=? 2 ^ 53 then Some (pretty z) else None
  end.

End JsNumber.

(** ** JavaScript values, as far as [hexToRgb] inspects them

    A string is a sequence of 8-bit characters (the code units below 256);
    the pattern of [hexToRgb] only accepts characters below 128. *)

Inductive js_value : Type :=
  | JUndefined
  | JNull
  | JBoolean (b : bool)
  | JNumber (x : float)
  | JString (s : string)
  | JObject.

Inductive js_type : Type :=
  | TyUndefined | TyObject | TyBoolean | TyNumber | TyString.

Definition typeof (v : js_value) : js_type :=
  match v with
  | JUndefined => TyUndefined
  | JNull => TyObject
  | JBoolean _ => TyBoolean
  | JNumber _ => TyNumber
  | JString _ => TyString
  | JObject => TyObject
  end.

Definition js_type_eqb (a b : js_type) : bool :=
  match a, b with
  | TyUndefined, TyUndefined | TyObject, TyObject | TyBoolean, TyBoolean
  | TyNumber, TyNumber | TyString, TyString => true
  | _, _ => false
  end.

(** [ToBoolean]: what [!v] negates. *)
Definition truthy (v : js_value) : bool :=
  match v with
  | JUndefined | JNull => false
  | JBoolean b => b
  | JNumber x => negb (PrimFloat.is_zero x || PrimFloat.is_nan x)
  | JString s => negb (String.eqb s "")
  | JObject => true
  end.

(** ** The theme engine *)

Module Theme.
Import JsNumber.

Record rgb : Type := RGB { r : float; g : float; b : float }.

(** *** The regular expression [/^#?([a-f\d]{2})([a-f\d]{2})([a-f\d]{2})$/i] *)

Definition in_range (lo hi c : ascii) : bool :=
  (N_of_ascii lo <=? N_of_ascii c)%N && (N_of_ascii c <=? N_of_ascii hi)%N.

(** [\d] *)
Definition class_digit (c : ascii) : bool := in_range "0" "9" c.

(** [[a-f]] under the [i] flag *)
Definition class_a_f_i (c : ascii) : bool :=
  in_range "a" "f" c || in_range "A" "F" c.

(** [[a-f\d]] under the [i] flag *)
Definition class_hex (c : ascii) : bool := class_a_f_i c || class_digit c.

(** One capture group [([a-f\d]{2})]: the captured text and the rest. *)
Definition group2 (s : string) : option (string * string) :=
  match s with
  | String c1 (String c2 rest) =>
      if class_hex c1 && class_hex c2
      then Some (String c1 (String c2 EmptyString), rest)
      else None
  | _ => None
  end.

(** The three groups followed by [$] (end of input, no [m] flag). *)
Definition groups_then_end (s : string) : option (string * string * string) :=
  '(g1, s1) ← group2 s;
  '(g2, s2) ← group2 s1;
  '(g3, s3) ← group2 s2;
  match s3 with
  | EmptyString => Some (g1, g2, g3)
  | _ => None
  end.

(** [exec]: anchored at the start; [#?] is greedy and backtracks. *)
Definition hex_regex_exec (s : string) : option (string * string * string) :=
  match s with
  | String c rest =>
      if Ascii.eqb c "#" then
        match groups_then_end rest with
        | Some m => Some m
        | None => groups_then_end s
        end
      else groups_then_end s
  | EmptyString => groups_then_end s
  end.

(** *** [parseInt(text, 16)] *)

Definition is_white_space (c : ascii) : bool :=
  let n := N_of_ascii c in
  ((9 <=? n) && (n <=? 13) || (n =? 32) || (n =? 160))%N.

Fixpoint trim_start (s : string) : string :=
  match s with
  | String c rest => if is_white_space c then trim_start rest else s
  | EmptyString => s
  end.

Definition hex_digit_value (c : ascii) : option Z :=
  let n := Z.of_N (N_of_ascii c) in
  if class_digit c then Some (n - 48)
  else if in_range "a" "f" c then Some (n - 87)
  else if in_range "A" "F" c then Some (n - 55)
  else None.

(** The longest prefix of hexadecimal digits, accumulated left to right:
    the value so far and whether a digit was seen. *)
Fixpoint hex_prefix (s : string) (acc : Z) (seen : bool) : Z * bool :=
  match s with
  | String c rest =>
      match hex_digit_value c with
      | Some d => hex_prefix rest (16 * acc + d) true
      | None => (acc, seen)
      end
  | EmptyString => (acc, seen)
  end.

Definition strip_sign (s : string) : bool * string :=
  match s with
  | String c rest =>
      if Ascii.eqb c "-" then (true, rest)
      else if Ascii.eqb c "+" then (false, rest)
      else (false, s)
  | EmptyString => (false, s)
  end.

Definition strip_0x (s : string) : string :=
  match s with
  | String c1 (String c2 rest) =>
      if Ascii.eqb c1 "0" && (Ascii.eqb c2 "x" || Ascii.eqb c2 "X") then rest
      else s
  | _ => s
  end.

(** The mathematical value [parseInt(text, 16)] reads; [None] is NaN. *)
Definition parseInt16_Z (text : string) : option (bool * Z) :=
  let '(negative, s) := strip_sign (trim_start text) in
  let '(n, seen) := hex_prefix (strip_0x s) 0 false in
  if seen then Some (negative, n) else None.

Definition parseInt16 (text : string) : float :=
  match parseInt16_Z text with
  | Some (negative, n) =>
      if negative then (- of_Z n)%float else of_Z n
  | None => nan
  end.

(** *** [hexToRgb], [mix], [applyTheme] *)

Definition default_rgb : rgb := RGB 37 99 235.

Definition hexToRgb (hex : js_value) : rgb :=
  if negb (truthy hex) || negb (js_type_eqb (typeof hex) TyString)
  then default_rgb
  else
    match hex with
    | JString s =>
        match hex_regex_exec s with
        | Some (g1, g2, g3) =>
            RGB (parseInt16 g1) (parseInt16 g2) (parseInt16 g3)
        | None => default_rgb
        end
    | _ => default_rgb
    end.

Definition mix_channel (x1 x2 weight : float) : float :=
  Math_round (x1 * (1 - weight) + x2 * weight)%float.

Definition mix (c1 c2 : rgb) (weight : float) : rgb :=
  RGB (mix_channel (r c1) (r c2) weight)
      (mix_channel (g c1) (g c2) weight)
      (mix_channel (b c1) (b c2) weight).

Definition white : rgb := RGB 255 255 255.
Definition black : rgb := RGB 0 0 0.

(** The object literal of [applyTheme], as [Object.entries] lists it
    (integer-like keys in ascending order, which is also the order they
    are written in). *)
Definition palette (base : rgb) : list (N * rgb) :=
  [ (50%N, mix base white 0.95); (100%N, mix base white 0.9);
    (200%N, mix base white 0.75); (300%N, mix base white 0.6);
    (400%N, mix base white 0.3); (500%N, mix base white 0.1);
    (600%N, base); (700%N, mix base black 0.1);
    (800%N, mix base black 0.25); (900%N, mix base black 0.4);
    (950%N, mix base black 0.6) ].

(** The template literal [`${value.r} ${value.g} ${value.b}`]. *)
Definition triple (value : rgb) : option string :=
  sr ← toString (r value);
  sg ← toString (g value);
  sb ← toString (b value);
  Some (sr +:+ " " +:+ sg +:+ " " +:+ sb).

(** The template literal [`--brand-${key}`]. *)
Definition brand_property (key : N) : string := "--brand-" +:+ pretty key.

(** [Object.entries(palette).forEach(... root.style.setProperty ...)]:
    the style declaration of the document root is a map from property
    names to values. *)
Fixpoint setProperties (entries : list (N * rgb)) (style : gmap string string)
  : option (gmap string string) :=
  match entries with
  | [] => Some style
  | (key, value) :: rest =>
      text ← triple value;
      setProperties rest (<[brand_property key := text]> style)
  end.

Definition applyTheme (hexColor : js_value) (style : gmap string string)
  : option (gmap string string) :=
  let base := hexToRgb hexColor in
  setProperties (palette base) style.

End Theme.

(** ** What the specification calls a valid colour *)

Module ThemeSpec.

(** The hexadecimal digits, in value order, in both letter cases. *)
Definition lower_digits : list ascii := list_ascii_of_string "0123456789abcdef".
Definition upper_digits : list ascii := list_ascii_of_string "0123456789ABCDEF".

Definition is_hex_digit (c : ascii) : bool :=
  existsb (Ascii.eqb c) lower_digits || existsb (Ascii.eqb c) upper_digits.

Fixpoint index_of (c : ascii) (l : list ascii) : option Z :=
  match l with
  | [] => None
  | d :: rest => if Ascii.eqb c d then Some 0 else Z.succ <$> index_of c rest
  end.

(** The value of a hexadecimal digit (0 for any other character). *)
Definition hex_value (c : ascii) : Z :=
  match index_of c lower_digits, index_of c upper_digits with
  | Some v, _ | None, Some v => v
  | None, None => 0
  end.

Definition six_hex_digits (s : string) : bool :=
  (String.length s =? 6)%nat && forallb is_hex_digit (list_ascii_of_string s).

(** A valid colour: six hexadecimal digits, with or without a leading [#]. *)
Definition is_valid_hex (s : string) : bool :=
  six_hex_digits s ||
  match s with
  | String c body => Ascii.eqb c "#" && six_hex_digits body
  | EmptyString => false
  end.

(** The channels a valid colour denotes, read off its six digits. *)
Definition channels_of (digits : string) : option (Z * Z * Z) :=
  match list_ascii_of_string digits with
  | [c1; c2; c3; c4; c5; c6] =>
      Some (16 * hex_value c1 + hex_value c2,
            16 * hex_value c3 + hex_value c4,
            16 * hex_value c5 + hex_value c6)
  | _ => None
  end.

Definition shade_keys : list N :=
  [50; 100; 200; 300; 400; 500; 600; 700; 800; 900; 950]%N.

(** ASCII case mapping, as [toUpperCase] and [toLowerCase] act on the
    characters a colour can contain. *)
Definition upper_char (c : ascii) : ascii :=
  if Theme.in_range "a" "z" c then ascii_of_N (N_of_ascii c - 32) else c.
Definition lower_char (c : ascii) : ascii :=
  if Theme.in_range "A" "Z" c then ascii_of_N (N_of_ascii c + 32) else c.

Fixpoint map_string (f : ascii -> ascii) (s : string) : string :=
  match s with
  | EmptyString => EmptyString
  | String c rest => String (f c) (map_string f rest)
  end.

Definition toUpperCase : string -> string := map_string upper_char.
Definition toLowerCase : string -> string := map_string lower_char.

(** The integer nearest to [num / den], halves going up ([den > 0]). *)
Definition nearest (num den : Z) : Z := (2 * num + den) / (2 * den).

(** The fixed blends, in the specification's words: per shade key, the
    colour blended towards (white is 255, black is 0, on every channel) and
    the weight in percent; shade 600 is the base itself. *)
Definition blends : list (N * (Z * Z)) :=
  [ (50%N, (255, 95)); (100%N, (255, 90)); (200%N, (255, 75));
    (300%N, (255, 60)); (400%N, (255, 30)); (500%N, (255, 10));
    (600%N, (0, 0)); (700%N, (0, 10)); (800%N, (0, 25)); (900%N, (0, 40));
    (950%N, (0, 60)) ].

(** One channel blended in exact arithmetic and rounded to the nearest
    integer. *)
Definition exact_shades (x : Z) : list Z :=
  (fun '(_, (target, percent)) =>
     nearest (x * (100 - percent) + target * percent) 100) <$> blends.

(** Six characters as a text, and the two characters of a capture group. *)
Definition six (c1 c2 c3 c4 c5 c6 : ascii) : string :=
  String c1 (String c2 (String c3 (String c4 (String c5 (String c6 ""))))).

Definition pair_text (c1 c2 : ascii) : string := String c1 (String c2 "").

(** The eleven shades of one channel, in key order: what the palette of a
    colour holds on that channel. *)
Definition channel_shades (x : float) : list float :=
  [ Theme.mix_channel x 255 0.95; Theme.mix_channel x 255 0.9;
    Theme.mix_channel x 255 0.75; Theme.mix_channel x 255 0.6;
    Theme.mix_channel x 255 0.3; Theme.mix_channel x 255 0.1;
    x;
    Theme.mix_channel x 0 0.1; Theme.mix_channel x 0 0.25;
    Theme.mix_channel x 0 0.4; Theme.mix_channel x 0 0.6 ].

(** A number that is an integer in [0,255]. *)
Definition is_byte (x : float) : bool :=
  match JsNumber.to_integer x with
  | Some q => (0 <=? q) && (q <=? 255)
  | None => false
  end.

(** The 256 values a channel parsed from two hexadecimal digits can take. *)
Definition bytes : list Z := Z.of_nat <$> seq 0 256.

(** A text of the form ["R G B"] with three decimal integers in [0,255]. *)
Definition byte_triple (text : string) : Prop :=
  exists cr cg cb : Z,
    0 <= cr <= 255 /\ 0 <= cg <= 255 /\ 0 <= cb <= 255 /\
    text = pretty cr +:+ " " +:+ pretty cg +:+ " " +:+ pretty cb.

(** What [applyTheme] leaves in the style declaration [style'], started
    from [style]. *)
Definition eleven_byte_triples (style style' : gmap string string) : Prop :=
  length shade_keys = 11%nat /\
  NoDup shade_keys /\
  (forall k, k ∈ shade_keys ->
     exists text,
       style' !! Theme.brand_property k = Some text /\ byte_triple text) /\
  (forall p, (forall k, k ∈ shade_keys -> p <> Theme.brand_property k) ->
     style' !! p = style !! p).

(** A list of integers that never increases from one entry to the next. *)
Fixpoint descending (l : list Z) : bool :=
  match l with
  | x :: (y :: _) as rest => (y <=? x) && descending rest
  | _ => true
  end.

(** The integers the entries of a palette hold on one channel. *)
Definition channel_integers (channel : Theme.rgb -> float)
    (entries : list (N * Theme.rgb)) : list (option Z) :=
  (fun e => JsNumber.to_integer (channel e.2)) <$> entries.

End ThemeSpec.

(** ** The entities of [types.ts] *)

Module Product.
Record t : Type := Build {
  id : string;
  name : string;
  category : string;
  price : float;
  description : string;
  image : string;
  featured : bool
}.
End Product.

Module BlogPost.
Record t : Type := Build {
  id : string;
  title : string;
  excerpt : string;
  content : string;
  author : string;
  date : string;
  image : string
}.
End BlogPost.

Module PageContent.
Record t : Type := Build {
  id : string;
  slug : string;
  title : string;
  content : string
}.
End PageContent.

Module SiteConfig.
Record t : Type := Build {
  shopName : string;
  logoUrl : option string;
  themeColor : string;
  whatsappNumber : string;
  address : string;
  email : string;
  welcomeMessage : string;
  footerDescription : string;
  heroImage : option string;
  aboutUsTitle : string;
  aboutUsContent : string;
  aboutUsImage : string
}.
End SiteConfig.

Inductive PageView : Type :=
  | HOME
  | SHOP
  | PRODUCT_DETAIL
  | BLOG
  | BLOG_DETAIL
  | DYNAMIC_PAGE
  | ADMIN_LOGIN
  | ADMIN_DASHBOARD.

#[global] Instance PageView_eq_dec : EqDecision PageView.
Proof. solve_decision. Defined.

(** The two views rendered without the site shell. *)
Definition is_admin_view (v : PageView) : bool :=
  match v with
  | ADMIN_LOGIN | ADMIN_DASHBOARD => true
  | _ => false
  end.

(** ** The services the controller imports

    [services/store] and [services/authService] are not part of the
    sources at hand; the controller is modelled over their interfaces. *)

(** How a promise settles. *)
Inductive settled (T : Type) : Type :=
  | Fulfilled (value : T)
  | Rejected.
Arguments Fulfilled {T} value.
Arguments Rejected {T}.

(** [Promise.all] of the four reads of [fetchData]. *)
Definition Promise_all4 {T1 T2 T3 T4 : Type}
    (p1 : settled T1) (p2 : settled T2) (p3 : settled T3) (p4 : settled T4)
  : settled (T1 * T2 * T3 * T4) :=
  match p1, p2, p3, p4 with
  | Fulfilled v1, Fulfilled v2, Fulfilled v3, Fulfilled v4 =>
      Fulfilled (v1, v2, v3, v4)
  | _, _, _, _ => Rejected
  end.

(** The data store adapter over a backend of type [B]: a read settles on
    the backend as it stands, a write settles and leaves a backend. *)
Class Store (B : Type) : Type := {
  getSiteConfig : B -> settled (option SiteConfig.t);
  getProducts : B -> settled (list Product.t);
  getBlogs : B -> settled (list BlogPost.t);
  getPages : B -> settled (list PageContent.t);
  saveProduct : Product.t -> B -> settled unit * B;
  deleteProduct : string -> B -> settled unit * B;
  saveBlog : BlogPost.t -> B -> settled unit * B;
  deleteBlog : string -> B -> settled unit * B;
  savePage : PageContent.t -> B -> settled unit * B;
  deletePage : string -> B -> settled unit * B;
  saveSiteConfig : SiteConfig.t -> B -> settled unit * B
}.

(** What [login] returns: [{ success, error? }]. *)
Record LoginResult : Type := { success : bool; error : option string }.

(** The auth gate over a session store of type [A]. *)
Class AuthService (A : Type) : Type := {
  checkIsAuthenticated : A -> bool;
  login : string -> A -> LoginResult * A;
  logout : A -> A
}.

(** ** The view controller [App] *)

Module App.

(** The [useState] cells of the component. *)
Record AppState : Type := {
  loading : bool;
  view : PageView;
  products : list Product.t;
  blogs : list BlogPost.t;
  pages : list PageContent.t;
  config : option SiteConfig.t;
  selectedProduct : option Product.t;
  selectedBlog : option BlogPost.t;
  selectedPage : option PageContent.t;
  isDarkMode : bool;
  loginPassword : string;
  loginError : string;
  showPassword : bool
}.

(** The initial values given to [useState]. *)
Definition initial : AppState :=
  {| loading := true; view := HOME; products := []; blogs := []; pages := [];
     config := None; selectedProduct := None; selectedBlog := None;
     selectedPage := None; isDarkMode := false;
     loginPassword := EmptyString; loginError := EmptyString;
     showPassword := false |}.

Definition setLoading (x : bool) (st : AppState) : AppState :=
  {| loading := x; view := view st; products := products st;
     blogs := blogs st; pages := pages st; config := config st;
     selectedProduct := selectedProduct st; selectedBlog := selectedBlog st;
     selectedPage := selectedPage st; isDarkMode := isDarkMode st;
     loginPassword := loginPassword st; loginError := loginError st;
     showPassword := showPassword st |}.

Definition setView (x : PageView) (st : AppState) : AppState :=
  {| loading := loading st; view := x; products := products st;
     blogs := blogs st; pages := pages st; config := config st;
     selectedProduct := selectedProduct st; selectedBlog := selectedBlog st;
     selectedPage := selectedPage st; isDarkMode := isDarkMode st;
     loginPassword := loginPassword st; loginError := loginError st;
     showPassword := showPassword st |}.

Definition setProducts (x : list Product.t) (st : AppState) : AppState :=
  {| loading := loading st; view := view st; products := x;
     blogs := blogs st; pages := pages st; config := config st;
     selectedProduct := selectedProduct st; selectedBlog := selectedBlog st;
     selectedPage := selectedPage st; isDarkMode := isDarkMode st;
     loginPassword := loginPassword st; loginError := loginError st;
     showPassword := showPassword st |}.

Definition setBlogs (x : list BlogPost.t) (st : AppState) : AppState :=
  {| loading := loading st; view := view st; products := products st;
     blogs := x; pages := pages st; config := config st;
     selectedProduct := selectedProduct st; selectedBlog := selectedBlog st;
     selectedPage := selectedPage st; isDarkMode := isDarkMode st;
     loginPassword := loginPassword st; loginError := loginError st;
     showPassword := showPassword st |}.

Definition setPages (x : list PageContent.t) (st : AppState) : AppState :=
  {| loading := loading st; view := view st; products := products st;
     blogs := blogs st; pages := x; config := config st;
     selectedProduct := selectedProduct st; selectedBlog := selectedBlog st;
     selectedPage := selectedPage st; isDarkMode := isDarkMode st;
     loginPassword := loginPassword st; loginError := loginError st;
     showPassword := showPassword st |}.

Definition setConfig (x : option SiteConfig.t) (st : AppState) : AppState :=
  {| loading := loading st; view := view st; products := products st;
     blogs := blogs st; pages := pages st; config := x;
     selectedProduct := selectedProduct st; selectedBlog := selectedBlog st;
     selectedPage := selectedPage st; isDarkMode := isDarkMode st;
     loginPassword := loginPassword st; loginError := loginError st;
     showPassword := showPassword st |}.

Definition setSelectedProduct (x : option Product.t) (st : AppState) : AppState :=
  {| loading := loading st; view := view st; products := products st;
     blogs := blogs st; pages := pages st; config := config st;
     selectedProduct := x; selectedBlog := selectedBlog st;
     selectedPage := selectedPage st; isDarkMode := isDarkMode st;
     loginPassword := loginPassword st; loginError := loginError st;
     showPassword := showPassword st |}.

Definition setSelectedBlog (x : option BlogPost.t) (st : AppState) : AppState :=
  {| loading := loading st; view := view st; products := products st;
     blogs := blogs st; pages := pages st; config := config st;
     selectedProduct := selectedProduct st; selectedBlog := x;
     selectedPage := selectedPage st; isDarkMode := isDarkMode st;
     loginPassword := loginPassword st; loginError := loginError st;
     showPassword := showPassword st |}.

Definition setSelectedPage (x : option PageContent.t) (st : AppState) : AppState :=
  {| loading := loading st; view := view st; products := products st;
     blogs := blogs st; pages := pages st; config := config st;
     selectedProduct := selectedProduct st; selectedBlog := selectedBlog st;
     selectedPage := x; isDarkMode := isDarkMode st;
     loginPassword := loginPassword st; loginError := loginError st;
     showPassword := showPassword st |}.

Definition setIsDarkMode (x : bool) (st : AppState) : AppState :=
  {| loading := loading st; view := view st; products := products st;
     blogs := blogs st; pages := pages st; config := config st;
     selectedProduct := selectedProduct st; selectedBlog := selectedBlog st;
     selectedPage := selectedPage st; isDarkMode := x;
     loginPassword := loginPassword st; loginError := loginError st;
     showPassword := showPassword st |}.

Definition setLoginPassword (x : string) (st : AppState) : AppState :=
  {| loading := loading st; view := view st; products := products st;
     blogs := blogs st; pages := pages st; config := config st;
     selectedProduct := selectedProduct st; selectedBlog := selectedBlog st;
     selectedPage := selectedPage st; isDarkMode := isDarkMode st;
     loginPassword := x; loginError := loginError st;
     showPassword := showPassword st |}.

Definition setLoginError (x : string) (st : AppState) : AppState :=
  {| loading := loading st; view := view st; products := products st;
     blogs := blogs st; pages := pages st; config := config st;
     selectedProduct := selectedProduct st; selectedBlog := selectedBlog st;
     selectedPage := selectedPage st; isDarkMode := isDarkMode st;
     loginPassword := loginPassword st; loginError := x;
     showPassword := showPassword st |}.

Definition setShowPassword (x : bool) (st : AppState) : AppState :=
  {| loading := loading st; view := view st; products := products st;
     blogs := blogs st; pages := pages st; config := config st;
     selectedProduct := selectedProduct st; selectedBlog := selectedBlog st;
     selectedPage := selectedPage st; isDarkMode := isDarkMode st;
     loginPassword := loginPassword st; loginError := loginError st;
     showPassword := x |}.

(** How evaluating an expression completes: normally, or by throwing. *)
Inductive completion (T : Type) : Type :=
  | Normal (value : T)
  | Throw.
Arguments Normal {T} value.
Arguments Throw {T}.

(** Reading a property of a value that may be [null] throws a [TypeError]
    when it is. *)
Definition property {T U : Type} (object : option T) (field : T -> U)
  : completion U :=
  match object with
  | Some o => Normal (field o)
  | None => Throw
  end.

(** [!object] for a value that is an object or [null]. *)
Definition is_null {T : Type} (object : option T) : bool :=
  match object with
  | Some _ => false
  | None => true
  end.

(** [a || b] on strings that may be [undefined]. *)
Definition or_else (a : option string) (b : string) : string :=
  match a with
  | Some text => if String.eqb text "" then b else text
  | None => b
  end.

Section Controller.
Context {B A : Type} `{!Store B} `{!AuthService A}.

(** What lives outside the component: the backend, the session store of
    the auth gate, and the parts of the browser the handlers touch (the
    [dark] class of the document root, the [theme] item of local storage,
    the scroll position). *)
Record World : Type := {
  backend : B;
  session : A;
  darkClass : bool;
  themeItem : option string;
  scroll : Z * Z
}.

Definition with_backend (b : B) (w : World) : World :=
  {| backend := b; session := session w; darkClass := darkClass w;
     themeItem := themeItem w; scroll := scroll w |}.

Definition with_session (a : A) (w : World) : World :=
  {| backend := backend w; session := a; darkClass := darkClass w;
     themeItem := themeItem w; scroll := scroll w |}.

Definition with_theme (dark : bool) (item : string) (w : World) : World :=
  {| backend := backend w; session := session w; darkClass := dark;
     themeItem := Some item; scroll := scroll w |}.

Definition scrollTo (x y : Z) (w : World) : World :=
  {| backend := backend w; session := session w; darkClass := darkClass w;
     themeItem := themeItem w; scroll := (x, y) |}.

(** An event handler, run to completion: asynchronous handlers are taken
    through their awaits with no other event in between. *)
Definition handler : Type := World -> AppState -> World * AppState.

(** A handler that only sets state. *)
Definition sets (f : AppState -> AppState) : handler := fun w st => (w, f st).

(** *** [fetchData] *)

(** Up to the [await]. *)
Definition fetchData_begin (st : AppState) : AppState := setLoading true st.

(** From the [await] on: a rejected read leaves the rest of the body
    unexecuted. *)
Definition fetchData_resume (b : B) (st : AppState) : AppState :=
  match Promise_all4 (getSiteConfig b) (getProducts b) (getBlogs b) (getPages b) with
  | Fulfilled (c, p, bl, pg) =>
      setLoading false (setPages pg (setBlogs bl (setProducts p (setConfig c st))))
  | Rejected => st
  end.

Definition fetchData (b : B) (st : AppState) : AppState :=
  fetchData_resume b (fetchData_begin st).

(** *** The first effect, run on mount *)

Definition mount (pageParam : option string) (prefersDark : bool) : handler :=
  fun w st =>
    let st1 := fetchData_begin st in
    let st2 :=
      match pageParam with
      | Some p => if String.eqb p "admin" then setView ADMIN_LOGIN st1 else st1
      | None => st1
      end in
    let savedDark :=
      match themeItem w with
      | Some item => String.eqb item "dark" || (String.eqb item "" && prefersDark)
      | None => prefersDark
      end in
    if savedDark
    then ({| backend := backend w; session := session w; darkClass := true;
             themeItem := themeItem w; scroll := scroll w |},
          setIsDarkMode true st2)
    else (w, st2).

(** *** The second effect, run when [config] changes *)

Definition theme_effect (st : AppState) (style : gmap string string)
  : option (gmap string string) :=
  match config st with
  | Some c =>
      if truthy (JString (SiteConfig.themeColor c))
      then Theme.applyTheme (JString (SiteConfig.themeColor c)) style
      else Some style
  | None => Some style
  end.

(** *** Handlers *)

Definition handleUpdateProducts (newProducts : list Product.t) : handler :=
  fun w st => (w, fetchData (backend w) st).

Definition handleProductChangeWrapper (updatedList : list Product.t) : handler :=
  sets (setProducts updatedList).

Definition toggleTheme : handler :=
  fun w st =>
    if isDarkMode st
    then (with_theme false "light" w, setIsDarkMode false st)
    else (with_theme true "dark" w, setIsDarkMode true st).

Definition handleLoginSubmit : handler :=
  fun w st =>
    let '(result, a) := login (loginPassword st) (session w) in
    let w' := with_session a w in
    if success result
    then (w', setView ADMIN_DASHBOARD
                (setLoginError EmptyString (setLoginPassword EmptyString st)))
    else (w', setLoginError (or_else (error result) "Login gagal") st).

(** [await write(x); fetchData();]: a rejected write leaves the rest of the
    body unexecuted. *)
Definition write_then_fetch (write : B -> settled unit * B) : handler :=
  fun w st =>
    match write (backend w) with
    | (Fulfilled _, b) => (with_backend b w, fetchData b st)
    | (Rejected, b) => (with_backend b w, st)
    end.

Definition onSaveProduct (p : Product.t) : handler :=
  write_then_fetch (saveProduct p).
Definition onDeleteProduct (id : string) : handler :=
  write_then_fetch (deleteProduct id).
Definition onSaveBlog (b : BlogPost.t) : handler :=
  write_then_fetch (saveBlog b).
Definition onDeleteBlog (id : string) : handler :=
  write_then_fetch (deleteBlog id).
Definition onSavePage (p : PageContent.t) : handler :=
  write_then_fetch (savePage p).
Definition onDeletePage (id : string) : handler :=
  write_then_fetch (deletePage id).
Definition onSaveConfig (c : SiteConfig.t) : handler :=
  write_then_fetch (saveSiteConfig c).

Definition onLogout : handler :=
  fun w st => (with_session (logout (session w)) w, setView HOME st).

Definition selectProduct (p : Product.t) : handler :=
  fun w st =>
    (scrollTo 0 0 w, setView PRODUCT_DETAIL (setSelectedProduct (Some p) st)).

Definition selectBlog (b : BlogPost.t) : handler :=
  fun w st =>
    (scrollTo 0 0 w, setView BLOG_DETAIL (setSelectedBlog (Some b) st)).

Definition onPageClick (p : PageContent.t) : handler :=
  fun w st =>
    (scrollTo 0 0 w, setView DYNAMIC_PAGE (setSelectedPage (Some p) st)).

(** *** The elements [App] creates *)

Inductive node : Type :=
  | ENull
  | ELoading
  | EEmptyDiv
  | EFragment (children : list node)
  | ESeoHead (title description : string) (image type : option string)
             (config : option SiteConfig.t)
  | ELoginPage (seo : node) (inputType value : string)
               (onChange : string -> handler) (onToggleShow : handler)
               (showsEyeOff : bool) (errorBanner : option string)
               (onSubmit onBack : handler)
  | EAdminDashboard (products : list Product.t) (blogs : list BlogPost.t)
                    (pages : list PageContent.t) (config : option SiteConfig.t)
                    (onLogout : handler)
                    (onSaveProduct : Product.t -> handler)
                    (onDeleteProduct : string -> handler)
                    (onSaveBlog : BlogPost.t -> handler)
                    (onDeleteBlog : string -> handler)
                    (onSavePage : PageContent.t -> handler)
                    (onDeletePage : string -> handler)
                    (onSaveConfig : SiteConfig.t -> handler)
  | EProductDetail (product : Product.t) (onBack : handler)
                   (config : option SiteConfig.t)
  | EShop (products : list Product.t) (selectProduct : Product.t -> handler)
  | EBlogArticle (seo : node) (onBack : handler) (image title content : string)
  | EBlogList (seo : node) (cards : list (BlogPost.t * handler))
  | EDynamicPageDisplay (page : PageContent.t)
  | EHome (products : list Product.t) (blogs : list BlogPost.t)
          (setView : PageView -> handler)
          (selectProduct : Product.t -> handler)
          (selectBlog : BlogPost.t -> handler) (config : option SiteConfig.t)
  | ENavbar (setView : PageView -> handler) (currentView : PageView)
            (config : option SiteConfig.t) (pages : list PageContent.t)
            (onPageClick : PageContent.t -> handler) (isDarkMode : bool)
            (toggleTheme : handler)
  | EFooter (setView : PageView -> handler) (config : option SiteConfig.t)
            (pages : list PageContent.t)
            (onPageClick : PageContent.t -> handler)
  | EWhatsAppFloatingButton (config : option SiteConfig.t)
  | EShell (navbar main footer whatsapp : node).

(** A render: what the function returns or throws, and the state its
    [set...] calls leave for the next render. *)
Definition rendering : Type := completion node * AppState.

(** *** [renderContent] *)

Definition renderContent (w : World) (st : AppState) : rendering :=
  let config := config st in
  match view st with
  | ADMIN_LOGIN =>
      (Normal
         (ELoginPage
            (ESeoHead "Admin Login" "Restricted Area" None None config)
            (if showPassword st then "text" else "password")
            (loginPassword st)
            (fun text => sets (setLoginPassword text))
            (sets (setShowPassword (negb (showPassword st))))
            (showPassword st)
            (if String.eqb (loginError st) "" then None else Some (loginError st))
            handleLoginSubmit
            (sets (setView HOME))),
       st)
  | ADMIN_DASHBOARD =>
      if negb (checkIsAuthenticated (session w))
      then (Normal ENull, setView ADMIN_LOGIN st)
      else
        (Normal
           (EFragment
              [ ESeoHead "Dashboard" "Admin Control Panel" None None config;
                EAdminDashboard (products st) (blogs st) (pages st) config
                  onLogout onSaveProduct onDeleteProduct onSaveBlog
                  onDeleteBlog onSavePage onDeletePage onSaveConfig ]),
         st)
  | PRODUCT_DETAIL =>
      match selectedProduct st with
      | Some product =>
          (Normal
             (EFragment
                [ ESeoHead (Product.name product) (Product.description product)
                    (Some (Product.image product)) (Some "product"%string)
                    config;
                  EProductDetail product (sets (setView SHOP)) config ]),
           st)
      | None => (Normal (EShop (products st) selectProduct), st)
      end
  | SHOP =>
      (Normal
         (EFragment
            [ ESeoHead "Katalog Produk" "Jual Audio Mobil Berkualitas" None
                None config;
              EShop (products st) selectProduct ]),
       st)
  | BLOG_DETAIL =>
      match selectedBlog st with
      | Some blog =>
          (Normal
             (EBlogArticle
                (ESeoHead (BlogPost.title blog) (BlogPost.excerpt blog)
                   (Some (BlogPost.image blog)) (Some "article"%string) config)
                (sets (setView BLOG))
                (BlogPost.image blog) (BlogPost.title blog)
                (BlogPost.content blog)),
           st)
      | None => (Normal EEmptyDiv, st)
      end
  | BLOG =>
      (Normal
         (EBlogList
            (ESeoHead "Artikel" "Tips Audio Mobil" None None config)
            (map (fun blog => (blog, selectBlog blog)) (blogs st))),
       st)
  | DYNAMIC_PAGE =>
      match selectedPage st with
      | Some page =>
          (Normal
             (EFragment
                [ ESeoHead (PageContent.title page) (PageContent.title page)
                    None None config;
                  EDynamicPageDisplay page ]),
           st)
      | None => (Normal ENull, st)
      end
  | HOME =>
      match property config SiteConfig.shopName with
      | Normal shopName =>
          (Normal
             (EFragment
                [ ESeoHead "Home" shopName None None config;
                  EHome (products st) (blogs st) (fun v => sets (setView v))
                    selectProduct selectBlog config ]),
           st)
      | Throw => (Throw, st)
      end
  end.

(** *** The component function *)

Definition render (w : World) (st : AppState) : rendering :=
  if loading st || is_null (config st)
  then (Normal ELoading, st)
  else
    match view st with
    | ADMIN_DASHBOARD | ADMIN_LOGIN => renderContent w st
    | _ =>
        match renderContent w st with
        | (Normal content, st') =>
            (Normal
               (EShell
                  (ENavbar (fun v => sets (setView v)) (view st) (config st)
                     (pages st) onPageClick (isDarkMode st) toggleTheme)
                  content
                  (EFooter (fun v => sets (setView v)) (config st) (pages st)
                     onPageClick)
                  (EWhatsAppFloatingButton (config st))),
             st')
        | (Throw, st') => (Throw, st')
        end
    end.

(** *** Reading an element tree *)

(** An element and everything below it. *)
Fixpoint elements (n : node) : list node :=
  n ::
  match n with
  | EFragment children =>
      (fix below (l : list node) : list node :=
         match l with
         | [] => []
         | child :: rest => elements child ++ below rest
         end) children
  | ELoginPage seo _ _ _ _ _ _ _ _ => elements seo
  | EBlogArticle seo _ _ _ _ => elements seo
  | EBlogList seo _ => elements seo
  | EShell navbar main footer whatsapp =>
      elements navbar ++ elements main ++ elements footer ++ elements whatsapp
  | _ => []
  end.

Definition is_dashboard (n : node) : bool :=
  match n with
  | EAdminDashboard _ _ _ _ _ _ _ _ _ _ _ _ => true
  | _ => false
  end.

(** Whether the admin dashboard is anywhere in what was rendered. *)
Definition shows_dashboard (out : completion node) : bool :=
  match out with
  | Normal n => existsb is_dashboard (elements n)
  | Throw => false
  end.

(** The [config] prop of an element that takes one. *)
Definition config_prop (n : node) : option (option SiteConfig.t) :=
  match n with
  | ESeoHead _ _ _ _ c => Some c
  | EAdminDashboard _ _ _ c _ _ _ _ _ _ _ _ => Some c
  | EProductDetail _ _ c => Some c
  | EHome _ _ _ _ _ c => Some c
  | ENavbar _ _ c _ _ _ _ => Some c
  | EFooter _ c _ _ => Some c
  | EWhatsAppFloatingButton c => Some c
  | _ => None
  end.

(** Every [config] prop passed anywhere in an element tree. *)
Definition config_props (n : node) : list (option SiteConfig.t) :=
  omap config_prop (elements n).

Definition is_login_page (n : node) : bool :=
  match n with
  | ELoginPage _ _ _ _ _ _ _ _ _ => true
  | _ => false
  end.

Definition error_banner (n : node) : option string :=
  match n with
  | ELoginPage _ _ _ _ _ _ banner _ _ => banner
  | _ => None
  end.

(** What the shell wraps. *)
Definition main_of (n : node) : option node :=
  match n with
  | EShell _ main _ _ => Some main
  | _ => None
  end.

(** A detail view is current and its selection is [null]. *)
Definition selection_is_null (st : AppState) : bool :=
  match view st with
  | PRODUCT_DETAIL => is_null (selectedProduct st)
  | BLOG_DETAIL => is_null (selectedBlog st)
  | DYNAMIC_PAGE => is_null (selectedPage st)
  | _ => false
  end.

(** The fallbacks of the three detail views, in the specification's words:
    the shop list, an empty node, nothing. *)
Definition fallback (st : AppState) : option node :=
  match view st with
  | PRODUCT_DETAIL => Some (EShop (products st) selectProduct)
  | BLOG_DETAIL => Some EEmptyDiv
  | DYNAMIC_PAGE => Some ENull
  | _ => None
  end.

(** The seven mutation handlers handed to the dashboard, by the write each
    one awaits. *)
Inductive mutation : Type :=
  | SaveProduct (p : Product.t)
  | DeleteProduct (id : string)
  | SaveBlog (b : BlogPost.t)
  | DeleteBlog (id : string)
  | SavePage (p : PageContent.t)
  | DeletePage (id : string)
  | SaveConfig (c : SiteConfig.t).

Definition write_of (m : mutation) : B -> settled unit * B :=
  match m with
  | SaveProduct p => saveProduct p
  | DeleteProduct id => deleteProduct id
  | SaveBlog b => saveBlog b
  | DeleteBlog id => deleteBlog id
  | SavePage p => savePage p
  | DeletePage id => deletePage id
  | SaveConfig c => saveSiteConfig c
  end.

Definition handler_of (m : mutation) : handler :=
  match m with
  | SaveProduct p => onSaveProduct p
  | DeleteProduct id => onDeleteProduct id
  | SaveBlog b => onSaveBlog b
  | DeleteBlog id => onDeleteBlog id
  | SavePage p => onSavePage p
  | DeletePage id => onDeletePage id
  | SaveConfig c => onSaveConfig c
  end.

End Controller.
End App.

(** ** Stand-ins for the absent services *)

Module Sample.

(** Modelled from the spec: the data store adapter ([services/store]),
    absent from the sources.  Each save is an upsert keyed by identifier,
    each delete is keyed by identifier, the configuration is a singleton
    overwritten wholesale, and every operation fails when the backend
    cannot be reached. *)
Record Memory : Type := {
  reachable : bool;
  stored_config : option SiteConfig.t;
  stored_products : list Product.t;
  stored_blogs : list BlogPost.t;
  stored_pages : list PageContent.t
}.

Fixpoint upsert {T : Type} (key : T -> string) (x : T) (l : list T) : list T :=
  match l with
  | [] => [x]
  | y :: rest =>
      if String.eqb (key y) (key x) then x :: rest else y :: upsert key x rest
  end.

Definition remove {T : Type} (key : T -> string) (id : string) (l : list T)
  : list T :=
  filter (fun y => key y ≠ id) l.

Definition read {T : Type} (field : Memory -> T) (m : Memory) : settled T :=
  if reachable m then Fulfilled (field m) else Rejected.

Definition write (update : Memory -> Memory) (m : Memory)
  : settled unit * Memory :=
  if reachable m then (Fulfilled tt, update m) else (Rejected, m).

Definition put_products (f : list Product.t -> list Product.t) (m : Memory) : Memory :=
  {| reachable := reachable m; stored_config := stored_config m;
     stored_products := f (stored_products m);
     stored_blogs := stored_blogs m; stored_pages := stored_pages m |}.

Definition put_blogs (f : list BlogPost.t -> list BlogPost.t) (m : Memory) : Memory :=
  {| reachable := reachable m; stored_config := stored_config m;
     stored_products := stored_products m;
     stored_blogs := f (stored_blogs m); stored_pages := stored_pages m |}.

Definition put_pages (f : list PageContent.t -> list PageContent.t) (m : Memory) : Memory :=
  {| reachable := reachable m; stored_config := stored_config m;
     stored_products := stored_products m;
     stored_blogs := stored_blogs m; stored_pages := f (stored_pages m) |}.

Definition put_config (c : SiteConfig.t) (m : Memory) : Memory :=
  {| reachable := reachable m; stored_config := Some c;
     stored_products := stored_products m;
     stored_blogs := stored_blogs m; stored_pages := stored_pages m |}.

#[global] Instance memory_store : Store Memory := {
  getSiteConfig := read stored_config;
  getProducts := read stored_products;
  getBlogs := read stored_blogs;
  getPages := read stored_pages;
  saveProduct p := write (put_products (upsert Product.id p));
  deleteProduct id := write (put_products (remove Product.id id));
  saveBlog b := write (put_blogs (upsert BlogPost.id b));
  deleteBlog id := write (put_blogs (remove BlogPost.id id));
  savePage p := write (put_pages (upsert PageContent.id p));
  deletePage id := write (put_pages (remove PageContent.id id));
  saveSiteConfig c := write (put_config c)
}.

(** Modelled from the spec: the auth gate ([services/authService]), absent
    from the sources.  [login] compares the password with a stored secret
    and returns a success flag plus an optional error message, which for a
    wrong password is the specification's ["Login gagal"];
    [checkIsAuthenticated] queries the persisted flag; [logout] clears it. *)
Record Session : Type := { secret : string; authenticated : bool }.

#[global] Instance session_auth : AuthService Session := {
  checkIsAuthenticated a := authenticated a;
  login password a :=
    if String.eqb password (secret a)
    then ({| success := true; error := None |},
          {| secret := secret a; authenticated := true |})
    else ({| success := false; error := Some "Login gagal"%string |}, a);
  logout a := {| secret := secret a; authenticated := false |}
}.

Definition shop_config : SiteConfig.t :=
  {| SiteConfig.shopName := "Audio Mobil"; SiteConfig.logoUrl := None;
     SiteConfig.themeColor := "#2563EB"; SiteConfig.whatsappNumber := "62811";
     SiteConfig.address := "Jakarta"; SiteConfig.email := "toko@example.com";
     SiteConfig.welcomeMessage := "Halo"; SiteConfig.footerDescription := "Toko";
     SiteConfig.heroImage := None; SiteConfig.aboutUsTitle := "Tentang";
     SiteConfig.aboutUsContent := "Kami"; SiteConfig.aboutUsImage := "about.png" |}.

Definition speaker : Product.t :=
  {| Product.id := "p1"; Product.name := "Speaker"; Product.category := "audio";
     Product.price := 250000; Product.description := "Coaxial";
     Product.image := "speaker.png"; Product.featured := true |}.

Definition article : BlogPost.t :=
  {| BlogPost.id := "b1"; BlogPost.title := "Memilih Subwoofer";
     BlogPost.excerpt := "Tips"; BlogPost.content := "Isi";
     BlogPost.author := "Admin"; BlogPost.date := "2024-01-01";
     BlogPost.image := "sub.png" |}.

Definition about : PageContent.t :=
  {| PageContent.id := "g1"; PageContent.slug := "about";
     PageContent.title := "Tentang Kami"; PageContent.content := "Profil" |}.

Definition memory : Memory :=
  {| reachable := true; stored_config := Some shop_config;
     stored_products := []; stored_blogs := []; stored_pages := [] |}.

(** A browser in which nobody has logged in. *)
Definition world : App.World (B := Memory) (A := Session) :=
  {| App.backend := memory;
     App.session := {| secret := "rahasia"; authenticated := false |};
     App.darkClass := false; App.themeItem := None; App.scroll := (0, 0) |}.

(** A backend that cannot be reached. *)
Definition offline : Memory :=
  {| reachable := false; stored_config := Some shop_config;
     stored_products := []; stored_blogs := []; stored_pages := [] |}.

(** The state once the first fetch has settled on [memory]. *)
Definition loaded : App.AppState := App.fetchData memory App.initial.

End Sample.
(** ** Characters of the hexadecimal class *)

Section HexChars.
Import Theme ThemeSpec.

Ltac each_ascii c :=
  destruct c as [[|] [|] [|] [|] [|] [|] [|] [|]].

Lemma class_hex_is_hex_digit (c : ascii) : class_hex c = is_hex_digit c.
Proof. each_ascii c; vm_compute; reflexivity. Qed.

Lemma hex_digit_value_hex (c : ascii) :
  class_hex c = true ->
  hex_digit_value c = Some (hex_value c) /\ 0 <= hex_value c <= 15.
Proof.
  each_ascii c; vm_compute; intros H; try discriminate H;
    (split; [reflexivity | split; discriminate]).
Qed.

Lemma hex_not_special (c : ascii) :
  class_hex c = true ->
  is_white_space c = false /\ Ascii.eqb c "#" = false /\
  Ascii.eqb c "-" = false /\ Ascii.eqb c "+" = false /\
  Ascii.eqb c "x" = false /\ Ascii.eqb c "X" = false.
Proof.
  each_ascii c; vm_compute; intros H; try discriminate H; repeat split.
Qed.

Lemma hex_case_value (c : ascii) :
  class_hex c = true ->
  class_hex (upper_char c) = true /\ class_hex (lower_char c) = true /\
  hex_value (upper_char c) = hex_value c /\
  hex_value (lower_char c) = hex_value c.
Proof.
  each_ascii c; vm_compute; intros H; try discriminate H; repeat split.
Qed.

End HexChars.

(** ** The regular expression against the specification's notion of validity *)

Section HexRegex.
Import Theme ThemeSpec.

Lemma six_hex_digits_inv (s : string) :
  six_hex_digits s = true ->
  exists c1 c2 c3 c4 c5 c6,
    s = six c1 c2 c3 c4 c5 c6 /\
    class_hex c1 = true /\ class_hex c2 = true /\ class_hex c3 = true /\
    class_hex c4 = true /\ class_hex c5 = true /\ class_hex c6 = true.
Proof.
  unfold six_hex_digits.
  destruct s as [|c1 [|c2 [|c3 [|c4 [|c5 [|c6 [|c7 t]]]]]]]; simpl;
    try discriminate.
  rewrite <- !class_hex_is_hex_digit, !andb_true_iff.
  intros (Ha & Hb & Hc & Hd & He & Hf & _).
  exists c1, c2, c3, c4, c5, c6. by repeat split.
Qed.

Lemma six_hex_digits_six c1 c2 c3 c4 c5 c6 :
  class_hex c1 = true -> class_hex c2 = true -> class_hex c3 = true ->
  class_hex c4 = true -> class_hex c5 = true -> class_hex c6 = true ->
  six_hex_digits (six c1 c2 c3 c4 c5 c6) = true.
Proof.
  intros H1 H2 H3 H4 H5 H6. unfold six_hex_digits. simpl.
  rewrite <- !class_hex_is_hex_digit, H1, H2, H3, H4, H5, H6. reflexivity.
Qed.

Lemma groups_then_end_six c1 c2 c3 c4 c5 c6 :
  class_hex c1 = true -> class_hex c2 = true -> class_hex c3 = true ->
  class_hex c4 = true -> class_hex c5 = true -> class_hex c6 = true ->
  groups_then_end (six c1 c2 c3 c4 c5 c6)
  = Some (pair_text c1 c2, pair_text c3 c4, pair_text c5 c6).
Proof.
  intros H1 H2 H3 H4 H5 H6. unfold groups_then_end, six. simpl.
  rewrite H1, H2. simpl. rewrite H3, H4. simpl. rewrite H5, H6. reflexivity.
Qed.

Lemma group2_inv (s g rest : string) :
  group2 s = Some (g, rest) ->
  exists c1 c2, s = String c1 (String c2 rest) /\ g = pair_text c1 c2 /\
                class_hex c1 = true /\ class_hex c2 = true.
Proof.
  destruct s as [|c1 [|c2 t]]; simpl; try discriminate.
  destruct (class_hex c1) eqn:H1; destruct (class_hex c2) eqn:H2; simpl;
    try discriminate.
  intros [= <- <-]. by exists c1, c2.
Qed.

Lemma groups_then_end_inv (s : string) m :
  groups_then_end s = Some m -> six_hex_digits s = true.
Proof.
  unfold groups_then_end. intros H.
  destruct (group2 s) as [[g1 s1]|] eqn:E1; simpl in H; [|discriminate].
  destruct (group2 s1) as [[g2 s2]|] eqn:E2; simpl in H; [|discriminate].
  destruct (group2 s2) as [[g3 s3]|] eqn:E3; simpl in H; [|discriminate].
  destruct s3; [|discriminate].
  apply group2_inv in E1 as (c1 & c2 & -> & _ & H1 & H2).
  apply group2_inv in E2 as (c3 & c4 & -> & _ & H3 & H4).
  apply group2_inv in E3 as (c5 & c6 & -> & _ & H5 & H6).
  by apply six_hex_digits_six.
Qed.

Lemma groups_then_end_hash (rest : string) :
  groups_then_end (String "#" rest) = None.
Proof. destruct rest; reflexivity. Qed.

(** The regular expression accepts exactly the valid colours. *)
Lemma hex_regex_exec_valid (s : string) :
  is_Some (hex_regex_exec s) <-> is_valid_hex s = true.
Proof.
  unfold is_valid_hex. rewrite orb_true_iff. split.
  - intros [m Hm]. destruct s as [|c rest]; [discriminate|].
    unfold hex_regex_exec in Hm.
    destruct (Ascii.eqb c "#") eqn:Ec.
    + apply Ascii.eqb_eq in Ec as ->. rewrite groups_then_end_hash in Hm.
      destruct (groups_then_end rest) eqn:E; [|discriminate].
      right. simpl. eauto using groups_then_end_inv.
    + left. eauto using groups_then_end_inv.
  - intros [H|H].
    + apply six_hex_digits_inv in H
        as (c1 & c2 & c3 & c4 & c5 & c6 & -> & H1 & H2 & H3 & H4 & H5 & H6).
      unfold hex_regex_exec, six at 1.
      destruct (hex_not_special c1 H1) as (_ & -> & _).
      fold (six c1 c2 c3 c4 c5 c6). rewrite groups_then_end_six by done. eauto.
    + destruct s as [|c rest]; [discriminate|].
      apply andb_true_iff in H as [Ec H].
      apply six_hex_digits_inv in H
        as (c1 & c2 & c3 & c4 & c5 & c6 & -> & H1 & H2 & H3 & H4 & H5 & H6).
      unfold hex_regex_exec. rewrite Ec, groups_then_end_six by done. eauto.
Qed.

Lemma hex_regex_exec_six c1 c2 c3 c4 c5 c6 :
  class_hex c1 = true -> class_hex c2 = true -> class_hex c3 = true ->
  class_hex c4 = true -> class_hex c5 = true -> class_hex c6 = true ->
  hex_regex_exec (six c1 c2 c3 c4 c5 c6)
  = Some (pair_text c1 c2, pair_text c3 c4, pair_text c5 c6) /\
  hex_regex_exec (String "#" (six c1 c2 c3 c4 c5 c6))
  = Some (pair_text c1 c2, pair_text c3 c4, pair_text c5 c6).
Proof.
  intros H1 H2 H3 H4 H5 H6. split.
  - unfold hex_regex_exec, six at 1.
    destruct (hex_not_special c1 H1) as (_ & -> & _).
    fold (six c1 c2 c3 c4 c5 c6). by apply groups_then_end_six.
  - unfold hex_regex_exec. simpl (Ascii.eqb _ _).
    by rewrite groups_then_end_six.
Qed.

Lemma parseInt16_pair (c1 c2 : ascii) :
  class_hex c1 = true -> class_hex c2 = true ->
  parseInt16 (pair_text c1 c2)
  = JsNumber.of_Z (16 * hex_value c1 + hex_value c2) /\
  0 <= 16 * hex_value c1 + hex_value c2 <= 255.
Proof.
  intros H1 H2.
  destruct (hex_not_special c1 H1) as (W1 & _ & M1 & P1 & _).
  destruct (hex_not_special c2 H2) as (_ & _ & _ & _ & X2 & X2').
  destruct (hex_digit_value_hex c1 H1) as [V1 B1].
  destruct (hex_digit_value_hex c2 H2) as [V2 B2].
  split; [|lia].
  unfold parseInt16, parseInt16_Z, pair_text. simpl trim_start. rewrite W1.
  unfold strip_sign. rewrite M1, P1. unfold strip_0x.
  rewrite X2, X2', andb_false_r. simpl. rewrite V1, V2. simpl.
  do 2 f_equal.
Qed.

End HexRegex.

(** ** Every shade of every byte is a byte *)

Section Shades.
Import JsNumber Theme ThemeSpec.

Lemma palette_channels (base : rgb) :
  (fun e => r e.2) <$> palette base = channel_shades (r base) /\
  (fun e => g e.2) <$> palette base = channel_shades (g base) /\
  (fun e => b e.2) <$> palette base = channel_shades (b base).
Proof. repeat split. Qed.

Lemma bytes_shades_checked :
  forallb (fun n => forallb is_byte (channel_shades (of_Z n))) bytes = true.
Proof. vm_compute. reflexivity. Qed.

Lemma elem_of_bytes (n : Z) : 0 <= n <= 255 -> n ∈ bytes.
Proof.
  intros Hn. unfold bytes. apply list_elem_of_fmap.
  exists (Z.to_nat n). split; [lia|].
  apply list_elem_of_In, in_seq. lia.
Qed.

Lemma channel_shades_bytes (n : Z) :
  0 <= n <= 255 -> Forall (fun x => is_byte x = true) (channel_shades (of_Z n)).
Proof.
  intros Hn. pose proof bytes_shades_checked as H.
  rewrite forallb_forall in H.
  specialize (H n (proj1 (list_elem_of_In _ _) (elem_of_bytes n Hn))).
  apply Forall_forall. intros x Hx. rewrite forallb_forall in H.
  apply H. by apply list_elem_of_In.
Qed.

(** On bytes the binary64 blend agrees with the blend in exact arithmetic
    rounded to the nearest integer, for each of the eleven shades. *)
Lemma bytes_shades_exact_checked :
  forallb (fun n => bool_decide (to_integer <$> channel_shades (of_Z n)
                                 = Some <$> exact_shades n)) bytes = true.
Proof. vm_compute. reflexivity. Qed.

Lemma channel_shades_exact (n : Z) :
  0 <= n <= 255 ->
  to_integer <$> channel_shades (of_Z n) = Some <$> exact_shades n.
Proof.
  intros Hn. pose proof bytes_shades_exact_checked as H.
  rewrite forallb_forall in H.
  specialize (H n (proj1 (list_elem_of_In _ _) (elem_of_bytes n Hn))).
  by apply bool_decide_eq_true in H.
Qed.

Lemma is_byte_toString (x : float) :
  is_byte x = true ->
  exists q, 0 <= q <= 255 /\ toString x = Some (pretty q).
Proof.
  unfold is_byte, toString.
  destruct (to_integer x) as [q|] eqn:E; [|discriminate].
  rewrite andb_true_iff, Z.leb_le, Z.leb_le. intros Hq. exists q. split; [lia|].
  unfold to_integer in E.
  destruct (Prim2SF x) as [sg| | |sg m e]; try discriminate; simpl;
    destruct (Z.abs q <=? 2 ^ 53) eqn:Hle; try reflexivity; lia.
Qed.

End Shades.

(** ** Writing the palette into the style declaration *)

Section ApplyTheme.
Import JsNumber Theme ThemeSpec.

Lemma brand_property_inj (k1 k2 : N) :
  brand_property k1 = brand_property k2 -> k1 = k2.
Proof.
  unfold brand_property. intros H. apply (inj pretty).
  by simplify_eq/=.
Qed.

Lemma setProperties_lookup (entries : list (N * rgb)) :
  forall style style' : gmap string string,
    setProperties entries style = Some style' ->
    NoDup (entries.*1) ->
    (forall k v, (k, v) ∈ entries ->
       exists text, triple v = Some text /\
                    style' !! brand_property k = Some text) /\
    (forall p, (forall k, k ∈ entries.*1 -> p <> brand_property k) ->
       style' !! p = style !! p).
Proof.
  induction entries as [|[k v] rest IH]; intros style style' Hset Hnd.
  - injection Hset as <-. split; [|done]. intros k v Hin. by inversion Hin.
  - simpl in Hset. destruct (triple v) as [text|] eqn:Ht; [|discriminate].
    simpl in Hset. apply NoDup_cons in Hnd as [Hk Hnd].
    destruct (IH _ _ Hset Hnd) as [Hin Hout]. split.
    + intros k' v' Hkv. apply elem_of_cons in Hkv as [[= -> ->]|Hkv].
      * exists text. split; [done|]. rewrite Hout.
        -- apply lookup_insert_eq.
        -- intros k' Hk' Heq. apply brand_property_inj in Heq as ->. done.
      * by apply Hin.
    + intros p Hp. rewrite Hout.
      * apply lookup_insert_ne. intros Heq. apply (Hp k); [|done].
        simpl. apply elem_of_cons. by left.
      * intros k' Hk'. apply Hp. simpl. apply elem_of_cons. by right.
Qed.

Lemma setProperties_total (entries : list (N * rgb)) :
  forall style : gmap string string,
    Forall (fun e => is_Some (triple e.2)) entries ->
    is_Some (setProperties entries style).
Proof.
  induction entries as [|[k v] rest IH]; intros style Hall; simpl; [eauto|].
  apply Forall_cons in Hall as [[text Ht] Hall]. simpl in Ht. rewrite Ht. simpl.
  by apply IH.
Qed.

Lemma triple_bytes (x y z : float) :
  is_byte x = true -> is_byte y = true -> is_byte z = true ->
  exists text, triple (RGB x y z) = Some text /\ byte_triple text.
Proof.
  intros Hx Hy Hz.
  apply is_byte_toString in Hx as (cr & Hr & Ex).
  apply is_byte_toString in Hy as (cg & Hg & Ey).
  apply is_byte_toString in Hz as (cb & Hb & Ez).
  unfold triple. cbn [r g b]. rewrite Ex, Ey, Ez. simpl.
  eexists. split; [reflexivity|]. by exists cr, cg, cb.
Qed.

(** Every entry of the palette of a colour with byte channels prints as a
    byte triple. *)
Lemma palette_bytes (cr cg cb : Z) :
  0 <= cr <= 255 -> 0 <= cg <= 255 -> 0 <= cb <= 255 ->
  Forall (fun e => exists text, triple e.2 = Some text /\ byte_triple text)
         (palette (RGB (of_Z cr) (of_Z cg) (of_Z cb))).
Proof.
  intros Hr Hg Hb.
  pose proof (channel_shades_bytes cr Hr) as Sr.
  pose proof (channel_shades_bytes cg Hg) as Sg.
  pose proof (channel_shades_bytes cb Hb) as Sb.
  unfold channel_shades in Sr, Sg, Sb.
  repeat match goal with
         | H : Forall _ (_ :: _) |- _ => apply Forall_cons in H as [? H]
         end.
  unfold palette, mix. cbn [r g b white black].
  repeat (apply Forall_cons; split; [by apply triple_bytes|]).
  apply Forall_nil_2.
Qed.

Lemma palette_keys (base : rgb) : (palette base).*1 = shade_keys.
Proof. reflexivity. Qed.

Lemma shade_keys_NoDup : NoDup shade_keys.
Proof. apply (bool_decide_unpack (NoDup shade_keys)). vm_compute. exact I. Qed.

(** What [hexToRgb] reads from a valid colour. *)
Lemma hexToRgb_six c1 c2 c3 c4 c5 c6 (s : string) :
  class_hex c1 = true -> class_hex c2 = true -> class_hex c3 = true ->
  class_hex c4 = true -> class_hex c5 = true -> class_hex c6 = true ->
  s = six c1 c2 c3 c4 c5 c6 \/ s = String "#" (six c1 c2 c3 c4 c5 c6) ->
  hexToRgb (JString s)
  = RGB (of_Z (16 * hex_value c1 + hex_value c2))
        (of_Z (16 * hex_value c3 + hex_value c4))
        (of_Z (16 * hex_value c5 + hex_value c6)).
Proof.
  intros H1 H2 H3 H4 H5 H6 Hs.
  destruct (hex_regex_exec_six c1 c2 c3 c4 c5 c6) as [E1 E2]; try done.
  assert (hex_regex_exec s
          = Some (pair_text c1 c2, pair_text c3 c4, pair_text c5 c6)) as E
    by (by destruct Hs as [-> | ->]).
  assert (truthy (JString s) = true) as T by (by destruct Hs as [-> | ->]).
  unfold hexToRgb. rewrite T. cbn [negb orb typeof js_type_eqb]. rewrite E.
  f_equal; by apply parseInt16_pair.
Qed.

Lemma is_valid_hex_inv (s : string) :
  is_valid_hex s = true ->
  exists c1 c2 c3 c4 c5 c6,
    (s = six c1 c2 c3 c4 c5 c6 \/ s = String "#" (six c1 c2 c3 c4 c5 c6)) /\
    class_hex c1 = true /\ class_hex c2 = true /\ class_hex c3 = true /\
    class_hex c4 = true /\ class_hex c5 = true /\ class_hex c6 = true.
Proof.
  unfold is_valid_hex. rewrite orb_true_iff. intros [H|H].
  - apply six_hex_digits_inv in H as (c1 & c2 & c3 & c4 & c5 & c6 & -> & H).
    exists c1, c2, c3, c4, c5, c6. split; [by left | done].
  - destruct s as [|c body]; [discriminate|].
    apply andb_true_iff in H as [Ec H]. apply Ascii.eqb_eq in Ec as ->.
    apply six_hex_digits_inv in H as (c1 & c2 & c3 & c4 & c5 & c6 & -> & H).
    exists c1, c2, c3, c4, c5, c6. split; [by right | done].
Qed.

End ApplyTheme.

Section ApplyThemeBytes.
Import JsNumber Theme ThemeSpec.

Lemma applyTheme_bytes (v : js_value) (cr cg cb : Z) (style : gmap string string) :
  hexToRgb v = RGB (of_Z cr) (of_Z cg) (of_Z cb) ->
  0 <= cr <= 255 -> 0 <= cg <= 255 -> 0 <= cb <= 255 ->
  exists style',
    applyTheme v style = Some style' /\ eleven_byte_triples style style'.
Proof.
  intros Hbase Br Bg Bb.
  pose proof (palette_bytes _ _ _ Br Bg Bb) as Hpal.
  unfold applyTheme. rewrite Hbase.
  set (base := RGB _ _ _) in *.
  destruct (setProperties_total _ style
              (Forall_impl _ _ _ Hpal
                 (fun e '(ex_intro _ t (conj Ht _)) => mk_is_Some _ _ Ht)))
    as [style' Hset].
  exists style'. split; [done|].
  split; [reflexivity|]. split; [apply shade_keys_NoDup|].
  destruct (setProperties_lookup _ _ _ Hset) as [Hin Hout].
  { rewrite palette_keys. apply shade_keys_NoDup. }
  rewrite palette_keys in Hout. split; [|done].
  intros k Hk. rewrite <- (palette_keys base) in Hk.
  apply list_elem_of_fmap in Hk as ([k' v'] & -> & Hkv). simpl.
  destruct (Hin _ _ Hkv) as (text & Ht & Hlook).
  rewrite Forall_forall in Hpal.
  destruct (Hpal _ Hkv) as (text' & Ht' & Hbytes). simpl in Ht'.
  exists text. split; [done|]. congruence.
Qed.

Lemma hexToRgb_not_string_or_empty (v : js_value) :
  (forall s, v = JString s -> s = EmptyString) -> hexToRgb v = default_rgb.
Proof.
  intros H. destruct v as [| |bv|x|s|]; try reflexivity.
  - unfold hexToRgb. cbn [typeof js_type_eqb negb]. by rewrite orb_true_r.
  - unfold hexToRgb. cbn [typeof js_type_eqb negb]. by rewrite orb_true_r.
  - by rewrite (H s eq_refl).
Qed.

Lemma hexToRgb_no_match (s : string) :
  hex_regex_exec s = None -> hexToRgb (JString s) = default_rgb.
Proof.
  intros E. unfold hexToRgb. rewrite E.
  by destruct (negb (truthy (JString s)) || _).
Qed.

End ApplyThemeBytes.

(** C1: for every valid six-digit colour, [applyTheme] succeeds, the palette
    has exactly the eleven shade keys 50, 100, ..., 900, 950 (no two equal),
    every one of the eleven [--brand-*] properties holds an ["R G B"] triple
    of integers in [0,255], and no other property is touched. *)
Theorem applyTheme_valid_hex (s : string) (style : gmap string string) :
  ThemeSpec.is_valid_hex s = true ->
  exists style',
    Theme.applyTheme (JString s) style = Some style' /\
    (Theme.palette (Theme.hexToRgb (JString s))).*1 = ThemeSpec.shade_keys /\
    length ThemeSpec.shade_keys = 11%nat /\
    NoDup ThemeSpec.shade_keys /\
    (forall k, k ∈ ThemeSpec.shade_keys ->
       exists text, style' !! Theme.brand_property k = Some text /\
                    ThemeSpec.byte_triple text) /\
    (forall p, (forall k, k ∈ ThemeSpec.shade_keys ->
                  p <> Theme.brand_property k) ->
       style' !! p = style !! p).
Proof.
  intros Hvalid.
  apply is_valid_hex_inv in Hvalid
    as (c1 & c2 & c3 & c4 & c5 & c6 & Hs & H1 & H2 & H3 & H4 & H5 & H6).
  pose proof (hexToRgb_six c1 c2 c3 c4 c5 c6 s H1 H2 H3 H4 H5 H6 Hs) as Hbase.
  destruct (applyTheme_bytes _ _ _ _ style Hbase) as (style' & Hset & Hok);
    try (by apply parseInt16_pair).
  exists style'. split; [done|]. split; [apply palette_keys | exact Hok].
Qed.

Lemma applyTheme_valid_hex_witness :
  ThemeSpec.is_valid_hex "#2563EB" = true /\
  exists style',
    Theme.applyTheme (JString "#2563EB") ∅ = Some style' /\
    (Theme.palette (Theme.hexToRgb (JString "#2563EB"))).*1
    = ThemeSpec.shade_keys /\
    length ThemeSpec.shade_keys = 11%nat /\
    NoDup ThemeSpec.shade_keys /\
    (forall k, k ∈ ThemeSpec.shade_keys ->
       exists text, style' !! Theme.brand_property k = Some text /\
                    ThemeSpec.byte_triple text) /\
    (forall p, (forall k, k ∈ ThemeSpec.shade_keys ->
                  p <> Theme.brand_property k) ->
       style' !! p = (∅ : gmap string string) !! p).
Proof.
  split; [reflexivity|].
  apply (applyTheme_valid_hex "#2563EB" ∅). reflexivity.
Defined.

(** C2: an input that is not a valid colour (a value that is not a string,
    the empty string, or any other text the pattern rejects) makes
    [hexToRgb] return the default blue [{37, 99, 235}]; the palette and the
    style written are those of the default colour, and [applyTheme]
    completes. *)
Theorem hexToRgb_invalid_default (v : js_value) (style : gmap string string) :
  (forall s, v = JString s -> ThemeSpec.is_valid_hex s = false) ->
  Theme.hexToRgb v = Theme.RGB 37 99 235 /\
  Theme.palette (Theme.hexToRgb v)
  = Theme.palette (Theme.hexToRgb (JString "#2563EB")) /\
  Theme.applyTheme v style = Theme.applyTheme (JString "#2563EB") style /\
  exists style',
    Theme.applyTheme v style = Some style' /\ ThemeSpec.eleven_byte_triples style style'.
Proof.
  intros Hv.
  assert (Theme.hexToRgb v = Theme.default_rgb) as Hdef.
  { destruct v as [| |bv|x|s|];
      try (by apply hexToRgb_not_string_or_empty; intros ? [=]).
    apply hexToRgb_no_match.
    destruct (Theme.hex_regex_exec s) eqn:E; [|done].
    specialize (Hv s eq_refl).
    rewrite (proj1 (hex_regex_exec_valid s)) in Hv; [discriminate|].
    rewrite E. eauto. }
  split; [exact Hdef|].
  assert (Theme.hexToRgb (JString "#2563EB") = Theme.default_rgb) as Hblue
    by (vm_compute; reflexivity).
  split; [by rewrite Hdef, Hblue|].
  split; [unfold Theme.applyTheme; by rewrite Hdef, Hblue|].
  apply (applyTheme_bytes v 37 99 235); [exact Hdef|lia..].
Qed.

Lemma hexToRgb_invalid_default_witness :
  (forall s, JString "not-a-colour" = JString s ->
             ThemeSpec.is_valid_hex s = false) /\
  Theme.hexToRgb (JString "not-a-colour") = Theme.RGB 37 99 235 /\
  Theme.palette (Theme.hexToRgb (JString "not-a-colour"))
  = Theme.palette (Theme.hexToRgb (JString "#2563EB")) /\
  Theme.applyTheme (JString "not-a-colour") ∅
  = Theme.applyTheme (JString "#2563EB") ∅ /\
  exists style',
    Theme.applyTheme (JString "not-a-colour") ∅ = Some style' /\
    ThemeSpec.eleven_byte_triples ∅ style'.
Proof.
  assert (forall s, JString "not-a-colour" = JString s ->
                    ThemeSpec.is_valid_hex s = false) as H
    by (intros s [= <-]; reflexivity).
  split; [exact H|].
  exact (hexToRgb_invalid_default (JString "not-a-colour") ∅ H).
Defined.

(** ** Letter case and the leading hash *)

Section HexCase.
Import JsNumber Theme ThemeSpec.

Ltac each_ascii c :=
  destruct c as [[|] [|] [|] [|] [|] [|] [|] [|]].

Lemma lower_char_reflects_hex (c : ascii) :
  class_hex (lower_char c) = true ->
  class_hex c = true /\ hex_value c = hex_value (lower_char c).
Proof. each_ascii c; vm_compute; intros H; try discriminate H; by split. Qed.

Lemma lower_upper_char (c : ascii) :
  class_hex c = true -> lower_char (upper_char c) = lower_char c.
Proof. each_ascii c; vm_compute; intros H; try discriminate H; reflexivity. Qed.

Lemma lower_lower_char (c : ascii) :
  class_hex c = true -> lower_char (lower_char c) = lower_char c.
Proof. each_ascii c; vm_compute; intros H; try discriminate H; reflexivity. Qed.

(** A text that agrees with six hexadecimal digits up to letter case is six
    hexadecimal digits of the same values. *)
Lemma same_lower_six c1 c2 c3 c4 c5 c6 (t : string) :
  class_hex c1 = true -> class_hex c2 = true -> class_hex c3 = true ->
  class_hex c4 = true -> class_hex c5 = true -> class_hex c6 = true ->
  toLowerCase t = toLowerCase (six c1 c2 c3 c4 c5 c6) ->
  exists d1 d2 d3 d4 d5 d6,
    t = six d1 d2 d3 d4 d5 d6 /\
    (class_hex d1 = true /\ hex_value d1 = hex_value c1) /\
    (class_hex d2 = true /\ hex_value d2 = hex_value c2) /\
    (class_hex d3 = true /\ hex_value d3 = hex_value c3) /\
    (class_hex d4 = true /\ hex_value d4 = hex_value c4) /\
    (class_hex d5 = true /\ hex_value d5 = hex_value c5) /\
    (class_hex d6 = true /\ hex_value d6 = hex_value c6).
Proof.
  intros H1 H2 H3 H4 H5 H6 Ht.
  assert (forall c d, class_hex c = true -> lower_char d = lower_char c ->
            class_hex d = true /\ hex_value d = hex_value c) as Hchar.
  { intros c d Hc Hd.
    destruct (hex_case_value c Hc) as (_ & Hl & _ & Hv).
    rewrite <- Hd in Hl. apply lower_char_reflects_hex in Hl as [Hd1 Hd2].
    split; [done|]. by rewrite Hd2, Hd. }
  destruct t as [|d1 [|d2 [|d3 [|d4 [|d5 [|d6 t]]]]]];
    try discriminate Ht.
  injection Ht as E1 E2 E3 E4 E5 E6 E7.
  destruct t; [|discriminate E7].
  exists d1, d2, d3, d4, d5, d6. split; [reflexivity|].
  pose proof (Hchar c1 d1 H1 E1). pose proof (Hchar c2 d2 H2 E2).
  pose proof (Hchar c3 d3 H3 E3). pose proof (Hchar c4 d4 H4 E4).
  pose proof (Hchar c5 d5 H5 E5). pose proof (Hchar c6 d6 H6 E6).
  tauto.
Qed.

Lemma toLowerCase_toUpperCase_six c1 c2 c3 c4 c5 c6 :
  class_hex c1 = true -> class_hex c2 = true -> class_hex c3 = true ->
  class_hex c4 = true -> class_hex c5 = true -> class_hex c6 = true ->
  toLowerCase (toUpperCase (six c1 c2 c3 c4 c5 c6))
  = toLowerCase (six c1 c2 c3 c4 c5 c6) /\
  toLowerCase (toLowerCase (six c1 c2 c3 c4 c5 c6))
  = toLowerCase (six c1 c2 c3 c4 c5 c6).
Proof.
  intros H1 H2 H3 H4 H5 H6. unfold toLowerCase, toUpperCase, six. simpl.
  by rewrite !lower_upper_char, !lower_lower_char.
Qed.

End HexCase.

(** C9: a six-digit hexadecimal text parses to the channels its digits
    denote, with or without a leading [#], and so does every text that
    differs from it only in letter case (its upper-case and lower-case
    forms among them). *)
Theorem hexToRgb_hash_and_case (s t : string) :
  ThemeSpec.six_hex_digits s = true ->
  ThemeSpec.toLowerCase t = ThemeSpec.toLowerCase s ->
  exists cr cg cb,
    ThemeSpec.channels_of s = Some (cr, cg, cb) /\
    let parsed := Theme.RGB (JsNumber.of_Z cr) (JsNumber.of_Z cg)
                            (JsNumber.of_Z cb) in
    Theme.hexToRgb (JString s) = parsed /\
    Theme.hexToRgb (JString (String "#" s)) = parsed /\
    Theme.hexToRgb (JString t) = parsed /\
    Theme.hexToRgb (JString (String "#" t)) = parsed /\
    Theme.hexToRgb (JString (ThemeSpec.toUpperCase s)) = parsed /\
    Theme.hexToRgb (JString (String "#" (ThemeSpec.toUpperCase s))) = parsed /\
    Theme.hexToRgb (JString (ThemeSpec.toLowerCase s)) = parsed /\
    Theme.hexToRgb (JString (String "#" (ThemeSpec.toLowerCase s))) = parsed.
Proof.
  intros Hs Ht.
  apply six_hex_digits_inv in Hs
    as (c1 & c2 & c3 & c4 & c5 & c6 & -> & H1 & H2 & H3 & H4 & H5 & H6).
  destruct (toLowerCase_toUpperCase_six c1 c2 c3 c4 c5 c6) as [Hu Hl];
    try done.
  assert (forall u, ThemeSpec.toLowerCase u
                    = ThemeSpec.toLowerCase (ThemeSpec.six c1 c2 c3 c4 c5 c6) ->
            forall hash : bool,
              Theme.hexToRgb (JString (if hash then String "#" u else u))
              = Theme.RGB
                  (JsNumber.of_Z (16 * ThemeSpec.hex_value c1 + ThemeSpec.hex_value c2))
                  (JsNumber.of_Z (16 * ThemeSpec.hex_value c3 + ThemeSpec.hex_value c4))
                  (JsNumber.of_Z (16 * ThemeSpec.hex_value c5 + ThemeSpec.hex_value c6)))
    as Hparse.
  { intros u Hu' hash.
    apply same_lower_six in Hu'
      as (d1 & d2 & d3 & d4 & d5 & d6 & -> & [D1 V1] & [D2 V2] & [D3 V3]
          & [D4 V4] & [D5 V5] & [D6 V6]); try done.
    rewrite <- V1, <- V2, <- V3, <- V4, <- V5, <- V6.
    apply hexToRgb_six; try done. destruct hash; [by right | by left]. }
  eexists _, _, _. split; [reflexivity|]. cbv zeta.
  repeat split;
    first [ apply (Hparse _ eq_refl false) | apply (Hparse _ eq_refl true)
          | apply (Hparse _ Ht false) | apply (Hparse _ Ht true)
          | apply (Hparse _ Hu false) | apply (Hparse _ Hu true)
          | apply (Hparse _ Hl false) | apply (Hparse _ Hl true) ].
Qed.

Lemma hexToRgb_hash_and_case_witness :
  ThemeSpec.six_hex_digits "2563eb" = true /\
  ThemeSpec.toLowerCase "2563Eb" = ThemeSpec.toLowerCase "2563eb" /\
  exists cr cg cb,
    ThemeSpec.channels_of "2563eb" = Some (cr, cg, cb) /\
    let parsed := Theme.RGB (JsNumber.of_Z cr) (JsNumber.of_Z cg)
                            (JsNumber.of_Z cb) in
    Theme.hexToRgb (JString "2563eb") = parsed /\
    Theme.hexToRgb (JString (String "#" "2563eb")) = parsed /\
    Theme.hexToRgb (JString "2563Eb") = parsed /\
    Theme.hexToRgb (JString (String "#" "2563Eb")) = parsed /\
    Theme.hexToRgb (JString (ThemeSpec.toUpperCase "2563eb")) = parsed /\
    Theme.hexToRgb (JString (String "#" (ThemeSpec.toUpperCase "2563eb")))
    = parsed /\
    Theme.hexToRgb (JString (ThemeSpec.toLowerCase "2563eb")) = parsed /\
    Theme.hexToRgb (JString (String "#" (ThemeSpec.toLowerCase "2563eb")))
    = parsed.
Proof.
  split; [reflexivity|]. split; [reflexivity|].
  apply (hexToRgb_hash_and_case "2563eb" "2563Eb"); reflexivity.
Defined.

(** ** The theme engine on concrete colours *)

(** C8: for the input [#2563EB], shade 600 is the base colour
    [{37, 99, 235}] itself, and shade 950 is [{15, 40, 94}], which is each
    base channel times 40/100 (60% of the way to black) rounded to the
    nearest integer; the style properties hold the two triples. *)
Theorem shades_of_2563EB :
  let base := Theme.hexToRgb (JString "#2563EB") in
  base = Theme.RGB 37 99 235 /\
  Theme.palette base !! 6%nat = Some (600%N, Theme.RGB 37 99 235) /\
  Theme.palette base !! 10%nat = Some (950%N, Theme.RGB 15 40 94) /\
  (ThemeSpec.nearest (37 * 40) 100, ThemeSpec.nearest (99 * 40) 100,
   ThemeSpec.nearest (235 * 40) 100) = (15, 40, 94) /\
  exists style',
    Theme.applyTheme (JString "#2563EB") ∅ = Some style' /\
    style' !! "--brand-600"%string = Some "37 99 235"%string /\
    style' !! "--brand-950"%string = Some "15 40 94"%string.
Proof.
  cbv zeta. repeat split; try (vm_compute; reflexivity).
  eexists. split; [reflexivity|]. split; vm_compute; reflexivity.
Qed.


(** ** The view controller *)

Section ControllerFacts.
Import App.
Context {B A : Type} `{!Store B} `{!AuthService A}.

Abbreviation World := (World (B := B) (A := A)).

Lemma renderContent_no_dashboard (w : World) (st : AppState) :
  checkIsAuthenticated (session w) = false ->
  shows_dashboard (fst (renderContent w st)) = false.
Proof.
  intros Hauth. unfold renderContent. rewrite Hauth.
  destruct (view st), (selectedProduct st), (selectedBlog st),
    (selectedPage st), (config st); reflexivity.
Qed.

Lemma render_no_dashboard (w : World) (st : AppState) :
  checkIsAuthenticated (session w) = false ->
  shows_dashboard (fst (render w st)) = false.
Proof.
  intros Hauth. pose proof (renderContent_no_dashboard w st Hauth) as Hc.
  unfold render. destruct (loading st || is_null (config st)); [reflexivity|].
  destruct (view st) eqn:Hv; try exact Hc;
    destruct (renderContent w st) as [[content|] st']; try reflexivity;
    simpl in *; rewrite !existsb_app, Hc; reflexivity.
Qed.

(** Past the loading guard, [renderContent] returns normally and hands the
    loaded configuration to every element that takes one. *)
Lemma renderContent_config (w : World) (st : AppState) (c : SiteConfig.t) :
  config st = Some c ->
  exists n st',
    renderContent w st = (Normal n, st') /\
    Forall (eq (Some c)) (config_props n).
Proof.
  intros Hc. unfold renderContent. rewrite Hc.
  destruct (view st), (selectedProduct st), (selectedBlog st),
    (selectedPage st), (checkIsAuthenticated (session w)); simpl;
    eexists _, _; (split; [reflexivity|]); repeat constructor.
Qed.

Lemma config_props_shell (navbar main footer whatsapp : node (B := B) (A := A)) :
  config_props (EShell navbar main footer whatsapp)
  = config_props navbar ++ config_props main ++ config_props footer
    ++ config_props whatsapp.
Proof. unfold config_props. simpl. by rewrite !omap_app. Qed.

Lemma render_config (w : World) (st : AppState) (c : SiteConfig.t) :
  loading st = false -> config st = Some c ->
  exists n st',
    render w st = (Normal n, st') /\
    Forall (eq (Some c)) (config_props n).
Proof.
  intros Hl Hc.
  destruct (renderContent_config w st c Hc) as (n & st' & Hr & Hn).
  unfold render. rewrite Hl, Hc. simpl.
  destruct (view st) eqn:Hv; rewrite Hr; try (by eexists _, _);
    (eexists _, _; split; [reflexivity|]);
    rewrite config_props_shell; repeat (apply Forall_app; split); try done;
    repeat constructor.
Qed.

(** A write that settles well is followed by a reload that replaces the
    four collections with what the backend now holds. *)
Lemma write_then_fetch_reloads (write : B -> settled unit * B)
    (w : World) (st : AppState) (done : unit) (b : B)
    (c : option SiteConfig.t) (p : list Product.t) (bl : list BlogPost.t)
    (pg : list PageContent.t) :
  write (backend w) = (Fulfilled done, b) ->
  getSiteConfig b = Fulfilled c -> getProducts b = Fulfilled p ->
  getBlogs b = Fulfilled bl -> getPages b = Fulfilled pg ->
  write_then_fetch write w st
  = (with_backend b w,
     {| loading := false; view := view st; products := p; blogs := bl;
        pages := pg; config := c; selectedProduct := selectedProduct st;
        selectedBlog := selectedBlog st; selectedPage := selectedPage st;
        isDarkMode := isDarkMode st; loginPassword := loginPassword st;
        loginError := loginError st; showPassword := showPassword st |}).
Proof.
  intros Hw Hc Hp Hb Hpg.
  unfold write_then_fetch, fetchData, fetchData_resume. rewrite Hw.
  rewrite Hc, Hp, Hb, Hpg. reflexivity.
Qed.

(** No optimistic update: a write that is rejected leaves the state as it
    was, and until the reads settle the old collections stay in place
    behind the loading flag. *)
Lemma write_then_fetch_rejected (write : B -> settled unit * B)
    (w : World) (st : AppState) (b : B) :
  write (backend w) = (Rejected, b) ->
  write_then_fetch write w st = (with_backend b w, st).
Proof. intros Hw. unfold write_then_fetch. by rewrite Hw. Qed.

Lemma handler_of_write (m : mutation) :
  handler_of (A := A) m = write_then_fetch (write_of m).
Proof. by destruct m. Qed.

End ControllerFacts.

(** C3: when the view is [ADMIN_DASHBOARD] and [checkIsAuthenticated()] is
    false, [renderContent] sets the view to [ADMIN_LOGIN] and returns
    [null]; the component returns that same [null] once past its loading
    guard (and the loading indicator before), the next render shows the
    login page, and no render of any state shows the dashboard while the
    session is not authenticated. *)
Theorem dashboard_requires_session {B A : Type} `{!Store B} `{!AuthService A}
    (w : App.World (B := B) (A := A)) (st : App.AppState) :
  App.view st = ADMIN_DASHBOARD ->
  checkIsAuthenticated (App.session w) = false ->
  App.renderContent w st = (App.Normal App.ENull, App.setView ADMIN_LOGIN st) /\
  App.render w st
  = (if App.loading st || App.is_null (App.config st)
     then (App.Normal App.ELoading, st)
     else (App.Normal App.ENull, App.setView ADMIN_LOGIN st)) /\
  (exists page,
     App.renderContent w (App.setView ADMIN_LOGIN st)
     = (App.Normal page, App.setView ADMIN_LOGIN st) /\
     App.is_login_page page = true) /\
  (forall st', App.shows_dashboard (fst (App.renderContent w st')) = false) /\
  (forall st', App.shows_dashboard (fst (App.render w st')) = false).
Proof.
  intros Hv Hauth. repeat split.
  - unfold App.renderContent. by rewrite Hv, Hauth.
  - unfold App.render, App.renderContent. rewrite Hv, Hauth.
    by destruct (App.loading st || App.is_null (App.config st)).
  - eexists. split; reflexivity.
  - intros st'. by apply renderContent_no_dashboard.
  - intros st'. by apply render_no_dashboard.
Qed.

Lemma dashboard_requires_session_witness :
  let st := App.setView ADMIN_DASHBOARD Sample.loaded in
  App.view st = ADMIN_DASHBOARD /\
  checkIsAuthenticated (App.session Sample.world) = false /\
  App.render Sample.world st
  = (App.Normal App.ENull, App.setView ADMIN_LOGIN st).
Proof.
  split; [reflexivity|]. split; [reflexivity|].
  exact (proj1 (proj2 (dashboard_requires_session Sample.world
                         (App.setView ADMIN_DASHBOARD Sample.loaded)
                         eq_refl eq_refl))).
Defined.

(** C5: a detail view whose selection is [null] renders without throwing:
    [PRODUCT_DETAIL] gives the shop list, [BLOG_DETAIL] an empty [div],
    [DYNAMIC_PAGE] [null]; the state is left as it was, and the component
    returns the loading indicator or the shell around that fallback. *)
Theorem detail_view_without_selection {B A : Type} `{!Store B} `{!AuthService A}
    (w : App.World (B := B) (A := A)) (st : App.AppState) :
  App.selection_is_null st = true ->
  exists n,
    App.fallback st = Some n /\
    App.renderContent w st = (App.Normal n, st) /\
    exists out,
      App.render w st = (App.Normal out, st) /\
      (if App.loading st || App.is_null (App.config st)
       then out = App.ELoading
       else App.main_of out = Some n).
Proof.
  unfold App.selection_is_null, App.fallback, App.render, App.renderContent.
  intros Hnull.
  destruct (App.view st); try discriminate Hnull.
  - destruct (App.selectedProduct st); [discriminate|].
    eexists. split; [reflexivity|]. split; [reflexivity|].
    destruct (App.loading st || App.is_null (App.config st));
      eexists; split; reflexivity.
  - destruct (App.selectedBlog st); [discriminate|].
    eexists. split; [reflexivity|]. split; [reflexivity|].
    destruct (App.loading st || App.is_null (App.config st));
      eexists; split; reflexivity.
  - destruct (App.selectedPage st); [discriminate|].
    eexists. split; [reflexivity|]. split; [reflexivity|].
    destruct (App.loading st || App.is_null (App.config st));
      eexists; split; reflexivity.
Qed.

Lemma detail_view_without_selection_witness :
  let st := App.setView PRODUCT_DETAIL Sample.loaded in
  App.selection_is_null st = true /\
  exists n,
    App.fallback st = Some n /\
    App.renderContent Sample.world st = (App.Normal n, st) /\
    exists out,
      App.render Sample.world st = (App.Normal out, st) /\
      (if App.loading st || App.is_null (App.config st)
       then out = App.ELoading
       else App.main_of out = Some n).
Proof.
  split; [reflexivity|].
  exact (detail_view_without_selection Sample.world
           (App.setView PRODUCT_DETAIL Sample.loaded) eq_refl).
Defined.

(** C7: while [loading] is true or [config] is [null] the component returns
    the loading indicator and nothing else, touching no state; that is the
    case of the initial state and of every state in which a fetch has
    begun.  In every other render the component returns normally and each
    element that takes a [config] gets the loaded, non-null one. *)
Theorem loading_guard {B A : Type} `{!Store B} `{!AuthService A}
    (w : App.World (B := B) (A := A)) (st : App.AppState) :
  (if App.loading st || App.is_null (App.config st)
   then App.render w st = (App.Normal App.ELoading, st)
   else exists c n st',
       App.config st = Some c /\
       App.render w st = (App.Normal n, st') /\
       Forall (eq (Some c)) (App.config_props n)) /\
  App.render w App.initial = (App.Normal App.ELoading, App.initial) /\
  App.render w (App.fetchData_begin st)
  = (App.Normal App.ELoading, App.fetchData_begin st).
Proof.
  split; [|split; reflexivity].
  destruct (App.loading st) eqn:Hl; simpl.
  - unfold App.render. by rewrite Hl.
  - destruct (App.config st) as [c|] eqn:Hc; simpl.
    + exists c. destruct (render_config w st c Hl Hc) as (n & st' & Hr & Hn).
      by exists n, st'.
    + unfold App.render. by rewrite Hl, Hc.
Qed.

(** C6: each of the seven mutation handlers, once its write has settled
    well and the four reads that follow have settled, leaves the state with
    the four collections read from the backend after the write and with
    [loading] false; nothing of the old collections is kept, and every
    other cell of the state is as it was. *)
Theorem mutation_reloads {B A : Type} `{!Store B} `{!AuthService A}
    (m : App.mutation) (w : App.World (B := B) (A := A)) (st : App.AppState)
    (done : unit) (b : B) (c : option SiteConfig.t) (p : list Product.t)
    (bl : list BlogPost.t) (pg : list PageContent.t) :
  App.write_of m (App.backend w) = (Fulfilled done, b) ->
  getSiteConfig b = Fulfilled c -> getProducts b = Fulfilled p ->
  getBlogs b = Fulfilled bl -> getPages b = Fulfilled pg ->
  exists st',
    App.handler_of m w st = (App.with_backend b w, st') /\
    App.config st' = c /\ App.products st' = p /\
    App.blogs st' = bl /\ App.pages st' = pg /\
    App.loading st' = false /\
    st' = App.setLoading false
            (App.setPages pg
               (App.setBlogs bl (App.setProducts p (App.setConfig c st)))).
Proof.
  intros Hw Hc Hp Hb Hpg. rewrite handler_of_write.
  rewrite (write_then_fetch_reloads _ w st done b c p bl pg Hw Hc Hp Hb Hpg).
  eexists. split; [reflexivity|]. by repeat split.
Qed.

Lemma mutation_reloads_witness :
  let b := App.backend Sample.world in
  let b' := Sample.put_products (Sample.upsert Product.id Sample.speaker) b in
  App.write_of (App.SaveProduct Sample.speaker) b = (Fulfilled tt, b') /\
  getProducts b' = Fulfilled [Sample.speaker] /\
  exists st',
    App.handler_of (App.SaveProduct Sample.speaker) Sample.world Sample.loaded
    = (App.with_backend b' Sample.world, st') /\
    App.config st' = Some Sample.shop_config /\
    App.products st' = [Sample.speaker] /\
    App.blogs st' = [] /\ App.pages st' = [] /\
    App.loading st' = false /\
    st' = App.setLoading false
            (App.setPages []
               (App.setBlogs []
                  (App.setProducts [Sample.speaker]
                     (App.setConfig (Some Sample.shop_config) Sample.loaded)))).
Proof.
  split; [reflexivity|]. split; [reflexivity|].
  exact (mutation_reloads (App.SaveProduct Sample.speaker) Sample.world
           Sample.loaded tt _ (Some Sample.shop_config) [Sample.speaker] [] []
           eq_refl eq_refl eq_refl eq_refl eq_refl).
Defined.

(** C10: when [login] reports success, [handleLoginSubmit] empties the
    password input and the login error and sets the view to
    [ADMIN_DASHBOARD]; the session is the one [login] left and no other
    cell of the state changes. *)
Theorem login_success {B A : Type} `{!Store B} `{!AuthService A}
    (w : App.World (B := B) (A := A)) (st : App.AppState) :
  success (fst (login (App.loginPassword st) (App.session w))) = true ->
  exists st',
    App.handleLoginSubmit w st
    = (App.with_session (snd (login (App.loginPassword st) (App.session w))) w,
       st') /\
    App.loginPassword st' = EmptyString /\
    App.loginError st' = EmptyString /\
    App.view st' = ADMIN_DASHBOARD /\
    st' = App.setView ADMIN_DASHBOARD
            (App.setLoginError EmptyString
               (App.setLoginPassword EmptyString st)).
Proof.
  intros Hs. unfold App.handleLoginSubmit.
  destruct (login (App.loginPassword st) (App.session w)) as [result a].
  simpl in Hs. rewrite Hs. eexists. split; [reflexivity|]. by repeat split.
Qed.

Lemma login_success_witness :
  let st := App.setLoginError "Login gagal"
              (App.setLoginPassword "rahasia"
                 (App.setView ADMIN_LOGIN Sample.loaded)) in
  success (fst (login (App.loginPassword st) (App.session Sample.world))) = true /\
  exists st',
    App.handleLoginSubmit Sample.world st
    = (App.with_session
         (snd (login (App.loginPassword st) (App.session Sample.world)))
         Sample.world, st') /\
    App.loginPassword st' = EmptyString /\
    App.loginError st' = EmptyString /\
    App.view st' = ADMIN_DASHBOARD /\
    st' = App.setView ADMIN_DASHBOARD
            (App.setLoginError EmptyString
               (App.setLoginPassword EmptyString st)).
Proof.
  split; [reflexivity|].
  exact (login_success Sample.world
           (App.setLoginError "Login gagal"
              (App.setLoginPassword "rahasia"
                 (App.setView ADMIN_LOGIN Sample.loaded))) eq_refl).
Defined.

(** ** A failed login *)

Lemma or_else_not_empty (a : option string) (b : string) :
  b <> EmptyString -> App.or_else a b <> EmptyString.
Proof.
  intros Hb. unfold App.or_else. destruct a as [text|]; [|done].
  destruct (String.eqb text "") eqn:E; [done|]. by apply String.eqb_neq.
Qed.

(** What [handleLoginSubmit] does with a failure of any auth gate: the
    login error becomes [result.error || 'Login gagal'], which is never
    empty, and the session is the one [login] left. *)
Lemma handleLoginSubmit_failure {B A : Type} `{!Store B} `{!AuthService A}
    (w : App.World (B := B) (A := A)) (st : App.AppState)
    (result : LoginResult) (a : A) :
  login (App.loginPassword st) (App.session w) = (result, a) ->
  success result = false ->
  App.handleLoginSubmit w st
  = (App.with_session a w,
     App.setLoginError (App.or_else (error result) "Login gagal") st) /\
  App.or_else (error result) "Login gagal" <> EmptyString.
Proof.
  intros Hlogin Hs. unfold App.handleLoginSubmit. rewrite Hlogin, Hs.
  split; [reflexivity | by apply or_else_not_empty].
Qed.

(** The failures of the auth gate modelled from the specification carry
    the message ["Login gagal"] and leave the session as it was. *)
Lemma session_auth_failure (password : string) (a : Sample.Session) :
  success (fst (login password a)) = false ->
  login password a
  = ({| success := false; error := Some "Login gagal"%string |}, a).
Proof.
  simpl. destruct (String.eqb password (Sample.secret a)); [discriminate|done].
Qed.

(** C4: with the auth gate as the specification describes it, a
    submission on the login view that [login] reports as failed has the
    result [{success:false, error:"Login gagal"}]; the handler sets the
    login error to ["Login gagal"] and the login page rendered next shows
    it inline; the view remains [ADMIN_LOGIN]; and nothing else changes:
    the collections, the configuration, the selections, the other cells of
    the state, the backend, the browser and the authentication are as they
    were. *)
Theorem login_failure {B : Type} `{!Store B}
    (w : App.World (B := B) (A := Sample.Session)) (st : App.AppState) :
  App.view st = ADMIN_LOGIN ->
  success (fst (login (App.loginPassword st) (App.session w))) = false ->
  fst (login (App.loginPassword st) (App.session w))
  = {| success := false; error := Some "Login gagal"%string |} /\
  App.handleLoginSubmit w st = (w, App.setLoginError "Login gagal" st) /\
  (let w' := fst (App.handleLoginSubmit w st) in
   let st' := snd (App.handleLoginSubmit w st) in
   App.loginError st' = "Login gagal"%string /\
   (exists page,
      App.renderContent w' st' = (App.Normal page, st') /\
      App.is_login_page page = true /\
      App.error_banner page = Some "Login gagal"%string) /\
   App.view st' = ADMIN_LOGIN /\
   checkIsAuthenticated (App.session w')
   = checkIsAuthenticated (App.session w) /\
   App.session w' = App.session w /\ App.backend w' = App.backend w /\
   App.loading st' = App.loading st /\
   App.products st' = App.products st /\
   App.blogs st' = App.blogs st /\
   App.pages st' = App.pages st /\
   App.config st' = App.config st /\
   App.selectedProduct st' = App.selectedProduct st /\
   App.selectedBlog st' = App.selectedBlog st /\
   App.selectedPage st' = App.selectedPage st /\
   App.isDarkMode st' = App.isDarkMode st /\
   App.loginPassword st' = App.loginPassword st /\
   App.showPassword st' = App.showPassword st).
Proof.
  intros Hv Hs.
  pose proof (session_auth_failure _ _ Hs) as Hlogin.
  destruct (handleLoginSubmit_failure w st _ _ Hlogin eq_refl) as [Hrun _].
  assert (App.with_session (App.session w) w = w) as Hw by (by destruct w).
  rewrite Hw in Hrun. simpl in Hrun.
  split; [by rewrite Hlogin|]. split; [exact Hrun|].
  cbv zeta. rewrite Hrun. simpl. split; [reflexivity|].
  split; [|by rewrite Hv].
  unfold App.renderContent. simpl. rewrite Hv.
  eexists. split; [reflexivity|]. split; reflexivity.
Qed.

Lemma login_failure_witness :
  let st := App.setLoginPassword "keliru"
              (App.setView ADMIN_LOGIN Sample.loaded) in
  App.view st = ADMIN_LOGIN /\
  success (fst (login (App.loginPassword st) (App.session Sample.world)))
  = false /\
  App.handleLoginSubmit Sample.world st
  = (Sample.world, App.setLoginError "Login gagal" st).
Proof.
  split; [reflexivity|]. split; [reflexivity|].
  exact (proj1 (proj2
    (@login_failure _ Sample.memory_store Sample.world
       (App.setLoginPassword "keliru"
          (App.setView ADMIN_LOGIN Sample.loaded)) eq_refl eq_refl))).
Defined.

(** ** More on the theme engine *)

Section ThemeMore.
Import JsNumber Theme ThemeSpec.

Lemma default_rgb_bytes : default_rgb = RGB (of_Z 37) (of_Z 99) (of_Z 235).
Proof. reflexivity. Qed.

(** Whatever it is given, [hexToRgb] returns three bytes. *)
Lemma hexToRgb_bytes (v : js_value) :
  exists cr cg cb,
    hexToRgb v = RGB (of_Z cr) (of_Z cg) (of_Z cb) /\
    0 <= cr <= 255 /\ 0 <= cg <= 255 /\ 0 <= cb <= 255.
Proof.
  assert (forall u, hexToRgb u = default_rgb ->
            exists cr cg cb,
              hexToRgb u = RGB (of_Z cr) (of_Z cg) (of_Z cb) /\
              0 <= cr <= 255 /\ 0 <= cg <= 255 /\ 0 <= cb <= 255) as Hdef.
  { intros u ->. exists 37, 99, 235. split; [apply default_rgb_bytes|lia]. }
  destruct v as [| |bv|x|s|];
    try (by apply Hdef, hexToRgb_not_string_or_empty; intros ? [=]).
  destruct (hex_regex_exec s) as [m|] eqn:E;
    [|by apply Hdef, hexToRgb_no_match].
  assert (is_valid_hex s = true) as Hvalid
    by (apply hex_regex_exec_valid; rewrite E; eauto).
  apply is_valid_hex_inv in Hvalid
    as (c1 & c2 & c3 & c4 & c5 & c6 & Hs & H1 & H2 & H3 & H4 & H5 & H6).
  eexists _, _, _.
  split; [exact (hexToRgb_six c1 c2 c3 c4 c5 c6 s H1 H2 H3 H4 H5 H6 Hs)|].
  repeat split; by apply parseInt16_pair.
Qed.

Lemma mapM_fmap_Some {X Y : Type} (f : X -> option Y) (l : list X) (k : list Y) :
  mapM f l = Some k -> f <$> l = Some <$> k.
Proof.
  rewrite mapM_Some. induction 1 as [|x y xs ys Hxy _ IH]; [done|].
  by rewrite !fmap_cons, Hxy, IH.
Qed.

Lemma bytes_descending_checked :
  forallb (fun n =>
             match mapM to_integer (channel_shades (of_Z n)) with
             | Some l => descending l
             | None => false
             end) bytes = true.
Proof. vm_compute. reflexivity. Qed.

Lemma channel_shades_descending (n : Z) :
  0 <= n <= 255 ->
  exists l, to_integer <$> channel_shades (of_Z n) = Some <$> l /\
            descending l = true.
Proof.
  intros Hn. pose proof bytes_descending_checked as H.
  rewrite forallb_forall in H.
  specialize (H n (proj1 (list_elem_of_In _ _) (elem_of_bytes n Hn))).
  destruct (mapM to_integer (channel_shades (of_Z n))) as [l|] eqn:E;
    [|discriminate].
  exists l. split; [by apply mapM_fmap_Some|done].
Qed.

Lemma bytes_of_Z_checked :
  forallb (fun n => bool_decide (to_integer (of_Z n) = Some n)) bytes = true.
Proof. vm_compute. reflexivity. Qed.

Lemma of_Z_byte_inj (x y : Z) :
  0 <= x <= 255 -> 0 <= y <= 255 -> of_Z x = of_Z y -> x = y.
Proof.
  intros Hx Hy Heq. pose proof bytes_of_Z_checked as H.
  rewrite forallb_forall in H.
  pose proof (H x (proj1 (list_elem_of_In _ _) (elem_of_bytes x Hx))) as Ex.
  pose proof (H y (proj1 (list_elem_of_In _ _) (elem_of_bytes y Hy))) as Ey.
  apply bool_decide_eq_true in Ex, Ey. rewrite Heq in Ex. congruence.
Qed.

Ltac each_ascii c :=
  destruct c as [[|] [|] [|] [|] [|] [|] [|] [|]].

Lemma lower_char_of_value (c : ascii) :
  class_hex c = true ->
  lower_digits !! Z.to_nat (hex_value c) = Some (lower_char c).
Proof. each_ascii c; vm_compute; intros H; try discriminate H; reflexivity. Qed.

Lemma same_value_same_lower (c d : ascii) :
  class_hex c = true -> class_hex d = true ->
  hex_value c = hex_value d -> lower_char c = lower_char d.
Proof.
  intros Hc Hd Hv. apply lower_char_of_value in Hc, Hd.
  rewrite Hv in Hc. congruence.
Qed.

(** Six hexadecimal digits of a given length are not shorter or longer. *)
Lemma is_valid_hex_length (s : string) :
  is_valid_hex s = true ->
  String.length s = 6%nat \/
  (String.length s = 7%nat /\ exists t, s = String "#" t).
Proof.
  intros H. apply is_valid_hex_inv in H
    as (c1 & c2 & c3 & c4 & c5 & c6 & [-> | ->] & _); [by left|].
  right. split; [reflexivity|]. eauto.
Qed.

Lemma brand_key_dec (p : string) :
  {k | k ∈ shade_keys /\ p = brand_property k} +
  {forall k, k ∈ shade_keys -> p <> brand_property k}.
Proof.
  destruct (decide (p ∈ brand_property <$> shade_keys)) as [Hin|Hout].
  - left. destruct (list_find (fun k => p = brand_property k) shade_keys)
      as [[i k]|] eqn:E.
    + apply list_find_Some in E as (Hk & Hp & _).
      exists k. split; [by eapply list_elem_of_lookup_2|done].
    + exfalso. apply list_find_None in E.
      apply list_elem_of_fmap in Hin as (k & -> & Hk).
      rewrite Forall_forall in E. by apply (E k).
  - right. intros k Hk ->. apply Hout, list_elem_of_fmap. eauto.
Defined.

Lemma hexToRgb_invalid_string (s : string) :
  is_valid_hex s = false -> hexToRgb (JString s) = default_rgb.
Proof.
  intros Hs. apply hexToRgb_no_match.
  destruct (hex_regex_exec s) as [m|] eqn:E; [|done].
  rewrite (proj1 (hex_regex_exec_valid s)) in Hs; [discriminate|].
  rewrite E. eauto.
Qed.

Lemma applyTheme_some (v : js_value) (style : gmap string string) :
  is_Some (applyTheme v style).
Proof.
  destruct (hexToRgb_bytes v) as (cr & cg & cb & Hbase & Hr & Hg & Hb).
  destruct (applyTheme_bytes v cr cg cb style Hbase Hr Hg Hb) as (t & Ht & _).
  eauto.
Qed.

End ThemeMore.

(** X1: whatever value [applyTheme] is given (a colour, a malformed text,
    the empty string, something that is not a string), it completes and
    leaves an ["R G B"] triple of integers in [0,255] in each of the eleven
    [--brand-*] properties, touching no other property: no [NaN] ever
    reaches the style declaration. *)
Theorem applyTheme_any_input (v : js_value) (style : gmap string string) :
  exists style',
    Theme.applyTheme v style = Some style' /\
    ThemeSpec.eleven_byte_triples style style'.
Proof.
  destruct (hexToRgb_bytes v) as (cr & cg & cb & Hbase & Hr & Hg & Hb).
  by eapply applyTheme_bytes.
Qed.

(** X2: for a valid colour, every shade of every channel is the exact
    linear blend of the channel with 255 (keys 50 to 500) or with 0 (keys
    700 to 950) at the fixed weight, rounded to the nearest integer: the
    binary64 arithmetic of [mix] never moves a result off the exact one. *)
Theorem shades_are_exact_blends (s : string) (cr cg cb : Z) :
  ThemeSpec.six_hex_digits s = true ->
  ThemeSpec.channels_of s = Some (cr, cg, cb) ->
  forall text, text = s \/ text = String "#" s ->
    let entries := Theme.palette (Theme.hexToRgb (JString text)) in
    entries.*1 = ThemeSpec.blends.*1 /\
    ThemeSpec.channel_integers Theme.r entries
    = Some <$> ThemeSpec.exact_shades cr /\
    ThemeSpec.channel_integers Theme.g entries
    = Some <$> ThemeSpec.exact_shades cg /\
    ThemeSpec.channel_integers Theme.b entries
    = Some <$> ThemeSpec.exact_shades cb.
Proof.
  intros Hs Hch text Htext.
  apply six_hex_digits_inv in Hs
    as (c1 & c2 & c3 & c4 & c5 & c6 & -> & H1 & H2 & H3 & H4 & H5 & H6).
  injection Hch as <- <- <-.
  assert (Theme.hexToRgb (JString text)
          = Theme.RGB
              (JsNumber.of_Z (16 * ThemeSpec.hex_value c1 + ThemeSpec.hex_value c2))
              (JsNumber.of_Z (16 * ThemeSpec.hex_value c3 + ThemeSpec.hex_value c4))
              (JsNumber.of_Z (16 * ThemeSpec.hex_value c5 + ThemeSpec.hex_value c6)))
    as Hbase by (by apply hexToRgb_six).
  cbv zeta. rewrite Hbase. split; [reflexivity|].
  pose proof (proj2 (parseInt16_pair c1 c2 H1 H2)) as Br.
  pose proof (proj2 (parseInt16_pair c3 c4 H3 H4)) as Bg.
  pose proof (proj2 (parseInt16_pair c5 c6 H5 H6)) as Bb.
  repeat split; [exact (channel_shades_exact _ Br)
                |exact (channel_shades_exact _ Bg)
                |exact (channel_shades_exact _ Bb)].
Qed.

Lemma shades_are_exact_blends_witness :
  ThemeSpec.six_hex_digits "2563EB" = true /\
  ThemeSpec.channels_of "2563EB" = Some (37, 99, 235) /\
  ThemeSpec.channel_integers Theme.b
    (Theme.palette (Theme.hexToRgb (JString "#2563EB")))
  = Some <$> ThemeSpec.exact_shades 235.
Proof.
  split; [reflexivity|]. split; [reflexivity|].
  exact (proj2 (proj2 (proj2
    (shades_are_exact_blends "2563EB" 37 99 235 eq_refl eq_refl
       "#2563EB" (or_intror eq_refl))))).
Defined.

(** X3: for every input, on each of the three channels the shades never
    get lighter from key 50 to key 950: the palette is ordered from the
    lightest shade to the darkest, with the base colour at key 600. *)
Theorem palette_is_ordered (v : js_value) :
  let entries := Theme.palette (Theme.hexToRgb v) in
  exists lr lg lb,
    ThemeSpec.channel_integers Theme.r entries = Some <$> lr /\
    ThemeSpec.channel_integers Theme.g entries = Some <$> lg /\
    ThemeSpec.channel_integers Theme.b entries = Some <$> lb /\
    ThemeSpec.descending lr = true /\ ThemeSpec.descending lg = true /\
    ThemeSpec.descending lb = true /\
    entries !! 6%nat = Some (600%N, Theme.hexToRgb v).
Proof.
  destruct (hexToRgb_bytes v) as (cr & cg & cb & Hbase & Hr & Hg & Hb).
  cbv zeta. rewrite Hbase.
  destruct (channel_shades_descending cr Hr) as (lr & Er & Dr).
  destruct (channel_shades_descending cg Hg) as (lg & Eg & Dg).
  destruct (channel_shades_descending cb Hb) as (lb & Eb & Db).
  exists lr, lg, lb. by repeat split.
Qed.

(** X4: a text whose length is neither six nor, with a leading [#], seven
    is not parsed: the three-digit shorthand ([#fff]), colours with an
    alpha byte ([#2563EBff]) and texts with surrounding spaces all give the
    default blue. *)
Theorem other_lengths_give_default (s : string) :
  String.length s <> 6%nat ->
  (String.length s <> 7%nat \/ forall t, s <> String "#" t) ->
  Theme.hexToRgb (JString s) = Theme.RGB 37 99 235.
Proof.
  intros H6 H7. apply hexToRgb_no_match.
  destruct (Theme.hex_regex_exec s) as [m|] eqn:E; [|done].
  assert (ThemeSpec.is_valid_hex s = true) as Hvalid
    by (apply hex_regex_exec_valid; rewrite E; eauto).
  apply is_valid_hex_length in Hvalid as [Hl | [Hl [t ->]]]; [done|].
  destruct H7 as [H7 | H7]; [done | by destruct (H7 t)].
Qed.

Lemma other_lengths_give_default_witness :
  String.length "#fff" <> 6%nat /\
  Theme.hexToRgb (JString "#fff") = Theme.RGB 37 99 235.
Proof.
  assert (String.length "#fff" <> 6%nat) as H by discriminate.
  split; [exact H|].
  apply (other_lengths_give_default "#fff" H). left. discriminate.
Defined.

(** X5: the last theme wins.  Applying a theme on top of an earlier one
    gives the very style declaration it gives without the earlier one, so
    nothing of the earlier palette is left; applying the same theme twice
    changes nothing further. *)
Theorem applyTheme_overwrites (u v : js_value) (style style1 : gmap string string) :
  Theme.applyTheme u style = Some style1 ->
  Theme.applyTheme v style1 = Theme.applyTheme v style /\
  Theme.applyTheme u style1 = Some style1.
Proof.
  intros Hu.
  assert (forall x (sa sb : gmap string string),
            (forall p, (forall k, k ∈ ThemeSpec.shade_keys ->
                          p <> Theme.brand_property k) ->
               sa !! p = sb !! p) ->
            forall ta tb,
              Theme.applyTheme x sa = Some ta ->
              Theme.applyTheme x sb = Some tb -> ta = tb) as Hsame.
  { intros x sa sb Hab ta tb Ha Hb. unfold Theme.applyTheme in Ha, Hb.
    destruct (setProperties_lookup _ _ _ Ha) as [Hina Houta];
      [rewrite palette_keys; apply shade_keys_NoDup|].
    destruct (setProperties_lookup _ _ _ Hb) as [Hinb Houtb];
      [rewrite palette_keys; apply shade_keys_NoDup|].
    rewrite palette_keys in Houta, Houtb.
    apply map_eq. intros p.
    destruct (brand_key_dec p) as [(k & Hk & ->) | Hp].
    - rewrite <- (palette_keys (Theme.hexToRgb x)) in Hk.
      apply list_elem_of_fmap in Hk as ([k' c] & -> & Hkc). simpl.
      destruct (Hina _ _ Hkc) as (text & Ht & ->).
      destruct (Hinb _ _ Hkc) as (text' & Ht' & ->). congruence.
    - by rewrite Houta, Houtb, Hab. }
  pose proof Hu as Hu'. unfold Theme.applyTheme in Hu'.
  destruct (setProperties_lookup _ _ _ Hu') as [_ Hout];
    [rewrite palette_keys; apply shade_keys_NoDup|].
  rewrite palette_keys in Hout.
  destruct (applyTheme_some v style1) as [t1 Ht1].
  destruct (applyTheme_some v style) as [t2 Ht2].
  destruct (applyTheme_some u style1) as [t3 Ht3].
  split.
  - rewrite Ht1, Ht2. f_equal. by eapply Hsame.
  - rewrite Ht3. f_equal. eapply Hsame; [|exact Ht3|exact Hu]. done.
Qed.

Lemma applyTheme_overwrites_witness :
  exists style1,
    Theme.applyTheme (JString "#ff0000") ∅ = Some style1 /\
    Theme.applyTheme (JString "#2563EB") style1
    = Theme.applyTheme (JString "#2563EB") ∅.
Proof.
  eexists. split; [reflexivity|].
  exact (proj1 (applyTheme_overwrites (JString "#ff0000") (JString "#2563EB")
                  ∅ _ eq_refl)).
Defined.

(** X6: two texts of six hexadecimal digits parse to the same colour
    exactly when they are the same up to letter case: no two different
    colours are confused. *)
Theorem hexToRgb_same_colour (s t : string) :
  ThemeSpec.six_hex_digits s = true -> ThemeSpec.six_hex_digits t = true ->
  Theme.hexToRgb (JString s) = Theme.hexToRgb (JString t)
  <-> ThemeSpec.toLowerCase s = ThemeSpec.toLowerCase t.
Proof.
  intros Hs Ht.
  apply six_hex_digits_inv in Hs
    as (c1 & c2 & c3 & c4 & c5 & c6 & -> & H1 & H2 & H3 & H4 & H5 & H6).
  apply six_hex_digits_inv in Ht
    as (d1 & d2 & d3 & d4 & d5 & d6 & -> & D1 & D2 & D3 & D4 & D5 & D6).
  rewrite (hexToRgb_six c1 c2 c3 c4 c5 c6) by (done || by left).
  rewrite (hexToRgb_six d1 d2 d3 d4 d5 d6) by (done || by left).
  pose proof (hex_digit_value_hex c1 H1) as [_ ?].
  pose proof (hex_digit_value_hex c2 H2) as [_ ?].
  pose proof (hex_digit_value_hex c3 H3) as [_ ?].
  pose proof (hex_digit_value_hex c4 H4) as [_ ?].
  pose proof (hex_digit_value_hex c5 H5) as [_ ?].
  pose proof (hex_digit_value_hex c6 H6) as [_ ?].
  pose proof (hex_digit_value_hex d1 D1) as [_ ?].
  pose proof (hex_digit_value_hex d2 D2) as [_ ?].
  pose proof (hex_digit_value_hex d3 D3) as [_ ?].
  pose proof (hex_digit_value_hex d4 D4) as [_ ?].
  pose proof (hex_digit_value_hex d5 D5) as [_ ?].
  pose proof (hex_digit_value_hex d6 D6) as [_ ?].
  split.
  - intros [= Er Eg Eb].
    apply of_Z_byte_inj in Er; [|lia..].
    apply of_Z_byte_inj in Eg; [|lia..].
    apply of_Z_byte_inj in Eb; [|lia..].
    unfold ThemeSpec.toLowerCase, ThemeSpec.six. simpl.
    rewrite (same_value_same_lower c1 d1), (same_value_same_lower c2 d2),
      (same_value_same_lower c3 d3), (same_value_same_lower c4 d4),
      (same_value_same_lower c5 d5), (same_value_same_lower c6 d6);
      try done; lia.
  - intros E. symmetry in E.
    apply same_lower_six in E
      as (e1 & e2 & e3 & e4 & e5 & e6 & [= <- <- <- <- <- <-] & [_ V1]
          & [_ V2] & [_ V3] & [_ V4] & [_ V5] & [_ V6]); try done.
    by rewrite V1, V2, V3, V4, V5, V6.
Qed.

Lemma hexToRgb_same_colour_witness :
  ThemeSpec.six_hex_digits "2563eb" = true /\
  ThemeSpec.six_hex_digits "2563EB" = true /\
  Theme.hexToRgb (JString "2563eb") = Theme.hexToRgb (JString "2563EB").
Proof.
  split; [reflexivity|]. split; [reflexivity|].
  apply (hexToRgb_same_colour "2563eb" "2563EB"); reflexivity.
Defined.

(** ** More on the view controller *)

Section ControllerMore.
Import App.
Context {B A : Type} `{!Store B} `{!AuthService A}.

Lemma loaded_guard (st : AppState) (c : SiteConfig.t) :
  loading st = false -> config st = Some c ->
  loading st || is_null (config st) = false.
Proof. by intros -> ->. Qed.

Lemma cards_of_blogs (l : list BlogPost.t) :
  (map (fun blog => (blog, selectBlog (B := B) (A := A) blog)) l).*1 = l.
Proof.
  induction l as [|x l IH]; [done|].
  simpl map. rewrite fmap_cons. simpl. by f_equal.
Qed.

Lemma fetchData_resume_rejected (b : B) (st : AppState) :
  getSiteConfig b = Rejected \/ getProducts b = Rejected \/
  getBlogs b = Rejected \/ getPages b = Rejected ->
  fetchData_resume b st = st.
Proof.
  unfold fetchData_resume.
  intros [E | [E | [E | E]]]; rewrite E;
    destruct (getSiteConfig b), (getProducts b), (getBlogs b), (getPages b);
    reflexivity || discriminate.
Qed.

End ControllerMore.

(** X7: rendering leaves the state alone except in one case: past the
    loading guard, with the view on [ADMIN_DASHBOARD] and no authenticated
    session, it sets the view to [ADMIN_LOGIN]. *)
Theorem render_state_change {B A : Type} `{!Store B} `{!AuthService A}
    (w : App.World (B := B) (A := A)) (st : App.AppState) :
  snd (App.render w st)
  = if negb (App.loading st) && negb (App.is_null (App.config st))
       && bool_decide (App.view st = ADMIN_DASHBOARD)
       && negb (checkIsAuthenticated (App.session w))
    then App.setView ADMIN_LOGIN st
    else st.
Proof.
  unfold App.render, App.renderContent.
  destruct (App.loading st), (App.config st) as [c|]; simpl; try reflexivity;
    destruct (App.view st), (App.selectedProduct st), (App.selectedBlog st),
      (App.selectedPage st), (checkIsAuthenticated (App.session w));
    reflexivity.
Qed.

(** X8: [renderContent] throws exactly when the view is [HOME] (the
    [default] branch, which reads [config.shopName]) and [config] is
    [null]; the component, which checks [config] first, never throws. *)
Theorem renderContent_throws_iff {B A : Type} `{!Store B} `{!AuthService A}
    (w : App.World (B := B) (A := A)) (st : App.AppState) :
  (fst (App.renderContent w st) = App.Throw
   <-> App.view st = HOME /\ App.config st = None) /\
  fst (App.render w st) <> App.Throw.
Proof.
  unfold App.render, App.renderContent. split.
  - destruct (App.view st), (App.selectedProduct st), (App.selectedBlog st),
      (App.selectedPage st), (checkIsAuthenticated (App.session w)),
      (App.config st); simpl; split; (intros [? ?] || intros ?);
      done.
  - destruct (App.loading st), (App.config st) as [c|]; simpl; try done;
      destruct (App.view st), (App.selectedProduct st), (App.selectedBlog st),
        (App.selectedPage st), (checkIsAuthenticated (App.session w));
      done.
Qed.

(** X9: once loaded, the two admin views are returned bare, as
    [renderContent] gives them, and every other view is returned inside the
    site shell: the navbar (told the current view, the pages and the dark
    mode flag), the content of [renderContent], the footer and the WhatsApp
    button, all given the loaded configuration. *)
Theorem shell_wraps_public_views {B A : Type} `{!Store B} `{!AuthService A}
    (w : App.World (B := B) (A := A)) (st : App.AppState) (c : SiteConfig.t) :
  App.loading st = false -> App.config st = Some c ->
  if is_admin_view (App.view st)
  then App.render w st = App.renderContent w st /\
       forall out, fst (App.render w st) = App.Normal out ->
                   App.main_of out = None
  else exists main,
      App.renderContent w st = (App.Normal main, st) /\
      App.render w st
      = (App.Normal
           (App.EShell
              (App.ENavbar (fun v => App.sets (App.setView v)) (App.view st)
                 (Some c) (App.pages st) App.onPageClick (App.isDarkMode st)
                 App.toggleTheme)
              main
              (App.EFooter (fun v => App.sets (App.setView v)) (Some c)
                 (App.pages st) App.onPageClick)
              (App.EWhatsAppFloatingButton (Some c))),
         st).
Proof.
  intros Hl Hc. unfold App.render, App.renderContent. rewrite Hl, Hc. simpl.
  destruct (App.view st), (App.selectedProduct st), (App.selectedBlog st),
    (App.selectedPage st), (checkIsAuthenticated (App.session w)); simpl;
    first [ by eexists | split; [done|]; intros out [= <-]; reflexivity ].
Qed.

Lemma shell_wraps_public_views_witness :
  App.loading Sample.loaded = false /\
  App.config Sample.loaded = Some Sample.shop_config /\
  exists main out,
    App.renderContent Sample.world Sample.loaded
    = (App.Normal main, Sample.loaded) /\
    App.render Sample.world Sample.loaded = (App.Normal out, Sample.loaded) /\
    App.main_of out = Some main.
Proof.
  split; [reflexivity|]. split; [reflexivity|].
  destruct (@shell_wraps_public_views _ _ Sample.memory_store
              Sample.session_auth Sample.world Sample.loaded
              Sample.shop_config eq_refl eq_refl) as (main & Hc & Hr).
  exists main. eexists. split; [exact Hc|]. split; [exact Hr|]. reflexivity.
Defined.

(** X10: choosing a product (from the shop list or the home page) scrolls
    to the top and, once loaded, shows the detail of that very product
    inside the shell, with the product's name, description and image as
    page metadata; its back button leads to the shop list of the same
    products. *)
Theorem selectProduct_shows_detail {B A : Type} `{!Store B} `{!AuthService A}
    (w : App.World (B := B) (A := A)) (st : App.AppState) (c : SiteConfig.t)
    (p : Product.t) :
  App.loading st = false -> App.config st = Some c ->
  let w1 := fst (App.selectProduct p w st) in
  let st1 := snd (App.selectProduct p w st) in
  App.scroll w1 = (0, 0) /\
  exists out back,
    App.render w1 st1 = (App.Normal out, st1) /\
    App.main_of out
    = Some (App.EFragment
              [ App.ESeoHead (Product.name p) (Product.description p)
                  (Some (Product.image p)) (Some "product"%string) (Some c);
                App.EProductDetail p back (Some c) ]) /\
    let st2 := snd (back w1 st1) in
    App.renderContent w1 st2
    = (App.Normal
         (App.EFragment
            [ App.ESeoHead "Katalog Produk" "Jual Audio Mobil Berkualitas"
                None None (Some c);
              App.EShop (App.products st) App.selectProduct ]),
       st2).
Proof.
  intros Hl Hc. cbv zeta. split; [reflexivity|].
  exists (App.EShell
            (App.ENavbar (fun v => App.sets (App.setView v)) PRODUCT_DETAIL
               (Some c) (App.pages st) App.onPageClick (App.isDarkMode st)
               App.toggleTheme)
            (App.EFragment
               [ App.ESeoHead (Product.name p) (Product.description p)
                   (Some (Product.image p)) (Some "product"%string) (Some c);
                 App.EProductDetail p (App.sets (App.setView SHOP)) (Some c) ])
            (App.EFooter (fun v => App.sets (App.setView v)) (Some c)
               (App.pages st) App.onPageClick)
            (App.EWhatsAppFloatingButton (Some c))),
    (App.sets (App.setView SHOP)).
  split; [|split; [reflexivity|]].
  - unfold App.render, App.renderContent. simpl. by rewrite Hl, Hc.
  - unfold App.renderContent. simpl. by rewrite Hc.
Qed.

Lemma selectProduct_shows_detail_witness :
  App.loading Sample.loaded = false /\
  App.config Sample.loaded = Some Sample.shop_config /\
  App.scroll (fst (App.selectProduct Sample.speaker Sample.world Sample.loaded))
  = (0, 0).
Proof.
  split; [reflexivity|]. split; [reflexivity|].
  exact (proj1 (@selectProduct_shows_detail _ _ Sample.memory_store
                  Sample.session_auth Sample.world Sample.loaded
                  Sample.shop_config Sample.speaker eq_refl eq_refl)).
Defined.

(** X11: once loaded, the [BLOG] view lists exactly one card per blog
    post of the state, in the state's order, and clicking the card of a
    post selects that post and shows its article (its image, title and
    content) on the next render. *)
Theorem blog_cards_open_their_post {B A : Type} `{!Store B} `{!AuthService A}
    (w : App.World (B := B) (A := A)) (st : App.AppState) (c : SiteConfig.t) :
  App.loading st = false -> App.config st = Some c -> App.view st = BLOG ->
  exists out seo cards,
    App.render w st = (App.Normal out, st) /\
    App.main_of out = Some (App.EBlogList seo cards) /\
    cards.*1 = App.blogs st /\
    forall blog click, (blog, click) ∈ cards ->
      let w1 := fst (click w st) in
      let st1 := snd (click w st) in
      App.selectedBlog st1 = Some blog /\
      exists seo1 back,
        App.renderContent w1 st1
        = (App.Normal
             (App.EBlogArticle seo1 back (BlogPost.image blog)
                (BlogPost.title blog) (BlogPost.content blog)),
           st1).
Proof.
  intros Hl Hc Hv.
  assert (App.renderContent w st
          = (App.Normal
               (App.EBlogList
                  (App.ESeoHead "Artikel" "Tips Audio Mobil" None None (Some c))
                  (map (fun blog => (blog, App.selectBlog blog)) (App.blogs st))),
             st)) as Hcontent
    by (unfold App.renderContent; by rewrite Hv, Hc).
  unfold App.render. rewrite Hl, Hc, Hv, Hcontent. simpl.
  eexists _, _, _. split; [reflexivity|].
  split; [reflexivity|]. split; [apply cards_of_blogs|].
  intros blog click Hin. apply list_elem_of_In, in_map_iff in Hin
    as (blog' & [= <- <-] & _).
  cbv zeta. split; [reflexivity|]. eexists _, _. reflexivity.
Qed.

Lemma blog_cards_open_their_post_witness :
  let st := App.setView BLOG (App.setBlogs [Sample.article] Sample.loaded) in
  App.loading st = false /\ App.config st = Some Sample.shop_config /\
  App.view st = BLOG /\
  exists out seo cards,
    App.render Sample.world st = (App.Normal out, st) /\
    App.main_of out = Some (App.EBlogList seo cards) /\
    cards.*1 = [Sample.article].
Proof.
  split; [reflexivity|]. split; [reflexivity|]. split; [reflexivity|].
  destruct (@blog_cards_open_their_post _ _ Sample.memory_store
              Sample.session_auth Sample.world
              (App.setView BLOG (App.setBlogs [Sample.article] Sample.loaded))
              Sample.shop_config eq_refl eq_refl eq_refl)
    as (out & seo & cards & Hr & Hm & Hc & _).
  by exists out, seo, cards.
Defined.

(** X12: clicking a page link of the navbar or the footer scrolls to the
    top and, once loaded, shows that page, with the page's title as both
    title and description of the page metadata. *)
Theorem onPageClick_shows_page {B A : Type} `{!Store B} `{!AuthService A}
    (w : App.World (B := B) (A := A)) (st : App.AppState) (c : SiteConfig.t)
    (p : PageContent.t) :
  App.loading st = false -> App.config st = Some c ->
  let w1 := fst (App.onPageClick p w st) in
  let st1 := snd (App.onPageClick p w st) in
  App.scroll w1 = (0, 0) /\
  exists out,
    App.render w1 st1 = (App.Normal out, st1) /\
    App.main_of out
    = Some (App.EFragment
              [ App.ESeoHead (PageContent.title p) (PageContent.title p)
                  None None (Some c);
                App.EDynamicPageDisplay p ]).
Proof.
  intros Hl Hc. cbv zeta. split; [reflexivity|].
  unfold App.render, App.renderContent. simpl.
  rewrite Hl, Hc. simpl. eexists. split; reflexivity.
Qed.

Lemma onPageClick_shows_page_witness :
  App.loading Sample.loaded = false /\
  App.config Sample.loaded = Some Sample.shop_config /\
  App.scroll (fst (App.onPageClick Sample.about Sample.world Sample.loaded))
  = (0, 0).
Proof.
  split; [reflexivity|]. split; [reflexivity|].
  exact (proj1 (@onPageClick_shows_page _ _ Sample.memory_store
                  Sample.session_auth Sample.world Sample.loaded
                  Sample.shop_config Sample.about eq_refl eq_refl)).
Defined.

(** X13: when any of the four reads of [fetchData] is rejected, nothing
    after the [await] runs: the collections and the configuration stay as
    they were, [loading] stays true, and the component shows the loading
    indicator. *)
Theorem fetch_rejected_keeps_loading {B A : Type} `{!Store B} `{!AuthService A}
    (w : App.World (B := B) (A := A)) (b : B) (st : App.AppState) :
  getSiteConfig b = Rejected \/ getProducts b = Rejected \/
  getBlogs b = Rejected \/ getPages b = Rejected ->
  App.fetchData b st = App.setLoading true st /\
  App.render w (App.fetchData b st)
  = (App.Normal App.ELoading, App.fetchData b st).
Proof.
  intros Hrej. unfold App.fetchData.
  rewrite (fetchData_resume_rejected b _ Hrej). split; reflexivity.
Qed.

Lemma fetch_rejected_keeps_loading_witness :
  getProducts Sample.offline = Rejected /\
  App.render Sample.world (App.fetchData Sample.offline Sample.loaded)
  = (App.Normal App.ELoading, App.fetchData Sample.offline Sample.loaded).
Proof.
  split; [reflexivity|].
  exact (proj2 (@fetch_rejected_keeps_loading _ _ Sample.memory_store
                  Sample.session_auth Sample.world Sample.offline
                  Sample.loaded (or_intror (or_introl eq_refl)))).
Defined.

(** X14: a mutation that fails, in its write or in the reload that follows
    it, keeps the collections and the configuration the state had, keeps
    the view and puts nothing in the login error or anywhere else; after a
    rejected write [loading] is untouched, after a rejected reload it is
    left true. *)
Theorem mutation_failure {B A : Type} `{!Store B} `{!AuthService A}
    (m : App.mutation) (w : App.World (B := B) (A := A)) (st : App.AppState)
    (outcome : settled unit) (b : B) :
  App.write_of m (App.backend w) = (outcome, b) ->
  outcome = Rejected \/
  (getSiteConfig b = Rejected \/ getProducts b = Rejected \/
   getBlogs b = Rejected \/ getPages b = Rejected) ->
  App.handler_of m w st
  = (App.with_backend b w,
     match outcome with
     | Rejected => st
     | Fulfilled _ => App.setLoading true st
     end).
Proof.
  intros Hw Hfail. rewrite handler_of_write. unfold App.write_then_fetch.
  rewrite Hw. destruct outcome as [u|]; [|done].
  destruct Hfail as [Hfail|Hfail]; [discriminate|].
  unfold App.fetchData. by rewrite (fetchData_resume_rejected b _ Hfail).
Qed.

Lemma mutation_failure_witness :
  let w := App.with_backend Sample.offline Sample.world in
  App.write_of (App.SaveProduct Sample.speaker) (App.backend w)
  = (Rejected, Sample.offline) /\
  App.handler_of (App.SaveProduct Sample.speaker) w Sample.loaded
  = (w, Sample.loaded).
Proof.
  split; [reflexivity|].
  exact (@mutation_failure _ _ Sample.memory_store Sample.session_auth
           (App.SaveProduct Sample.speaker)
           (App.with_backend Sample.offline Sample.world) Sample.loaded
           Rejected Sample.offline eq_refl (or_introl eq_refl)).
Defined.

(** X15: a reload is idempotent (a second [fetchData] on the same backend
    changes nothing more) and never touches the view, the three
    selections, the dark mode flag or the login form: a detail view keeps
    the record selected before the reload. *)
Theorem fetchData_twice {B : Type} `{!Store B}
    (b : B) (st : App.AppState) :
  let st1 := App.fetchData b st in
  App.fetchData b st1 = st1 /\
  App.view st1 = App.view st /\
  App.selectedProduct st1 = App.selectedProduct st /\
  App.selectedBlog st1 = App.selectedBlog st /\
  App.selectedPage st1 = App.selectedPage st /\
  App.isDarkMode st1 = App.isDarkMode st /\
  App.loginPassword st1 = App.loginPassword st /\
  App.loginError st1 = App.loginError st /\
  App.showPassword st1 = App.showPassword st.
Proof.
  unfold App.fetchData, App.fetchData_resume, App.fetchData_begin.
  destruct (getSiteConfig b), (getProducts b), (getBlogs b), (getPages b);
    by repeat split.
Qed.

(** X16: [toggleTheme] flips the dark mode flag and leaves the [dark]
    class of the document and the stored [theme] item in step with it;
    toggling again restores the state; and the stored item brings the same
    flag back on the next page load, whatever the system preference. *)
Theorem toggleTheme_in_step {B A : Type} `{!Store B} `{!AuthService A}
    (w : App.World (B := B) (A := A)) (st : App.AppState)
    (pageParam : option string) (prefersDark : bool) :
  let w1 := fst (App.toggleTheme w st) in
  let st1 := snd (App.toggleTheme w st) in
  App.isDarkMode st1 = negb (App.isDarkMode st) /\
  App.darkClass w1 = App.isDarkMode st1 /\
  App.themeItem w1
  = Some (if App.isDarkMode st1 then "dark" else "light")%string /\
  App.backend w1 = App.backend w /\ App.session w1 = App.session w /\
  snd (App.toggleTheme w1 st1) = st /\
  App.isDarkMode (snd (App.mount pageParam prefersDark w1 App.initial))
  = App.isDarkMode st1.
Proof.
  destruct st as [l v ps bs pgs c sp sb spg dark lp le sh].
  unfold App.toggleTheme, App.mount. destruct dark, pageParam as [q|]; simpl;
    repeat split; try destruct (String.eqb q "admin"); reflexivity.
Qed.

(** X17: on mount the component starts loading and shows the loading
    indicator; the view becomes [ADMIN_LOGIN] exactly when the [page]
    query parameter is [admin] and is [HOME] otherwise; the stored theme
    item is never written; with no stored item (or an empty one) dark mode
    follows the system preference, with the item [dark] it is on, and with
    any other item it is off. *)
Theorem mount_routes_and_themes {B A : Type} `{!Store B} `{!AuthService A}
    (w : App.World (B := B) (A := A))
    (pageParam : option string) (prefersDark : bool) :
  let w1 := fst (App.mount pageParam prefersDark w App.initial) in
  let st1 := snd (App.mount pageParam prefersDark w App.initial) in
  App.loading st1 = true /\
  App.render w1 st1 = (App.Normal App.ELoading, st1) /\
  App.view st1
  = (if bool_decide (pageParam = Some "admin"%string)
     then ADMIN_LOGIN else HOME) /\
  App.themeItem w1 = App.themeItem w /\
  App.isDarkMode st1
  = match App.themeItem w with
    | None => prefersDark
    | Some item =>
        if bool_decide (item = "dark"%string) then true
        else if bool_decide (item = EmptyString) then prefersDark
        else false
    end.
Proof.
  cbv zeta. unfold App.mount.
  assert (forall x y : string, String.eqb x y = bool_decide (x = y)) as Heqb.
  { intros x y. destruct (String.eqb_spec x y) as [->|Hne].
    - by rewrite bool_decide_eq_true_2.
    - by rewrite bool_decide_eq_false_2. }
  rewrite ?Heqb.
  destruct (App.themeItem w) as [item|] eqn:Hitem;
    destruct pageParam as [q|]; rewrite ?Heqb;
    repeat case_bool_decide; simplify_eq; try destruct prefersDark; simpl;
    rewrite ?Hitem; by repeat split.
Qed.

(** X18: the effect on [config] leaves the style declaration alone while
    there is no configuration or its theme colour is the empty string (so
    an emptied colour keeps the theme applied before); for any other
    colour it completes with eleven byte triples, which for a colour that
    is not valid are those of the default blue. *)
Theorem theme_effect_cases (st : App.AppState) (style : gmap string string) :
  match App.config st with
  | None => App.theme_effect st style = Some style
  | Some c =>
      if bool_decide (SiteConfig.themeColor c = EmptyString)
      then App.theme_effect st style = Some style
      else exists style',
          App.theme_effect st style = Some style' /\
          ThemeSpec.eleven_byte_triples style style' /\
          (ThemeSpec.is_valid_hex (SiteConfig.themeColor c) = false ->
           Theme.applyTheme (JString "#2563EB") style = Some style')
  end.
Proof.
  unfold App.theme_effect. destruct (App.config st) as [c|]; [|done].
  destruct (decide (SiteConfig.themeColor c = EmptyString)) as [E|E].
  - rewrite bool_decide_eq_true_2 by done. by rewrite E.
  - rewrite bool_decide_eq_false_2 by done.
    assert (truthy (JString (SiteConfig.themeColor c)) = true) as ->.
    { simpl. by apply negb_true_iff, String.eqb_neq. }
    destruct (hexToRgb_bytes (JString (SiteConfig.themeColor c)))
      as (cr & cg & cb & Hbase & Hr & Hg & Hb).
    destruct (applyTheme_bytes _ cr cg cb style Hbase Hr Hg Hb)
      as (style' & Hs & Hok).
    exists style'. split; [done|]. split; [done|].
    intros Hinv. rewrite <- Hs. unfold Theme.applyTheme.
    by rewrite (hexToRgb_invalid_string _ Hinv).
Qed.

(** X19: after a submission that [login] reports as successful, the next
    render (once loaded) shows the dashboard, bare, with the collections
    and the configuration of the state and the seven mutation handlers,
    provided the session [login] left is authenticated; if it is not, the
    render returns [null] and sends the view back to [ADMIN_LOGIN]. *)
Theorem login_opens_dashboard {B A : Type} `{!Store B} `{!AuthService A}
    (w : App.World (B := B) (A := A)) (st : App.AppState) (c : SiteConfig.t)
    (result : LoginResult) (a : A) :
  App.loading st = false -> App.config st = Some c ->
  login (App.loginPassword st) (App.session w) = (result, a) ->
  success result = true ->
  let w1 := fst (App.handleLoginSubmit w st) in
  let st1 := snd (App.handleLoginSubmit w st) in
  App.render w1 st1
  = if checkIsAuthenticated a
    then (App.Normal
            (App.EFragment
               [ App.ESeoHead "Dashboard" "Admin Control Panel" None None
                   (Some c);
                 App.EAdminDashboard (App.products st) (App.blogs st)
                   (App.pages st) (Some c) App.onLogout App.onSaveProduct
                   App.onDeleteProduct App.onSaveBlog App.onDeleteBlog
                   App.onSavePage App.onDeletePage App.onSaveConfig ]),
          st1)
    else (App.Normal App.ENull, App.setView ADMIN_LOGIN st1).
Proof.
  intros Hl Hc Hlogin Hs. cbv zeta.
  unfold App.handleLoginSubmit. rewrite Hlogin, Hs. simpl.
  unfold App.render, App.renderContent. simpl. rewrite Hl, Hc. simpl.
  by destruct (checkIsAuthenticated a).
Qed.

Lemma login_opens_dashboard_witness :
  let st := App.setLoginPassword "rahasia"
              (App.setView ADMIN_LOGIN Sample.loaded) in
  App.loading st = false /\ App.config st = Some Sample.shop_config /\
  success (fst (login (App.loginPassword st) (App.session Sample.world)))
  = true /\
  App.shows_dashboard
    (fst (App.render (fst (App.handleLoginSubmit Sample.world st))
            (snd (App.handleLoginSubmit Sample.world st)))) = true.
Proof.
  split; [reflexivity|]. split; [reflexivity|]. split; [reflexivity|].
  rewrite (@login_opens_dashboard _ _ Sample.memory_store Sample.session_auth
             Sample.world
             (App.setLoginPassword "rahasia"
                (App.setView ADMIN_LOGIN Sample.loaded))
             Sample.shop_config {| success := true; error := None |}
             {| Sample.secret := "rahasia"; Sample.authenticated := true |}
             eq_refl eq_refl eq_refl eq_refl).
  reflexivity.
Defined.

(** X20: logging out hands the session to [logout], sets the view to
    [HOME] and changes nothing else; the next render (once loaded) is the
    home page inside the shell and shows no dashboard, whatever [logout]
    did to the session. *)
Theorem logout_goes_home {B A : Type} `{!Store B} `{!AuthService A}
    (w : App.World (B := B) (A := A)) (st : App.AppState) (c : SiteConfig.t) :
  App.loading st = false -> App.config st = Some c ->
  let w1 := fst (App.onLogout w st) in
  let st1 := snd (App.onLogout w st) in
  App.session w1 = logout (App.session w) /\
  App.backend w1 = App.backend w /\
  st1 = App.setView HOME st /\
  App.shows_dashboard (fst (App.render w1 st1)) = false /\
  exists out,
    App.render w1 st1 = (App.Normal out, st1) /\
    App.main_of out
    = Some (App.EFragment
              [ App.ESeoHead "Home" (SiteConfig.shopName c) None None (Some c);
                App.EHome (App.products st) (App.blogs st)
                  (fun v => App.sets (App.setView v)) App.selectProduct
                  App.selectBlog (Some c) ]).
Proof.
  intros Hl Hc. cbv zeta. unfold App.onLogout. simpl.
  unfold App.render, App.renderContent. simpl. rewrite Hl, Hc. simpl.
  repeat split. eexists. split; reflexivity.
Qed.

Lemma logout_goes_home_witness :
  App.loading Sample.loaded = false /\
  App.config Sample.loaded = Some Sample.shop_config /\
  App.view (snd (App.onLogout Sample.world
                   (App.setView ADMIN_DASHBOARD Sample.loaded))) = HOME.
Proof.
  split; [reflexivity|]. split; [reflexivity|].
  pose proof (@logout_goes_home _ _ Sample.memory_store Sample.session_auth
                Sample.world (App.setView ADMIN_DASHBOARD Sample.loaded)
                Sample.shop_config eq_refl eq_refl) as (_ & _ & Hst & _).
  cbv zeta in Hst. by rewrite Hst.
Defined.
